(** * MLStockPredictor: the technical-indicator and recommendation engine

    A shallow embedding of the class [MLStockPredictor] (moving averages,
    RSI, MACD, Bollinger bands, the next-day predictor, the backtest
    generator and the recommendation ranking) and the properties the
    specification states about it.

    Numbers.  A JavaScript number is modelled by [num]: NaN, the two
    infinities, or a finite value, the finite values being exact rationals.
    Rounding, overflow and the sign of zero are not modelled; the result
    of every arithmetic operation is reduced to lowest terms.
    The statements are worded so as not to lean on that exactness.  A
    bound on a result is stated with the program's own products and
    comparisons ([in_band]) and does not say that the result is finite,
    so it also reads correctly where a product overflows to +Infinity.
    A numeric range ([within]) is stated only for values that rounding
    keeps inside it: confidences clamped to, or built from, constants,
    and indicators on prices of a stated size ([price_sized]).
    [undefined], which the program only ever meets as the result of reading
    an array out of range, is [None] of an option; [ToNumber] turns it into
    NaN where JavaScript coerces it. *)

From Stdlib Require Import ZArith QArith Qabs List Bool Lia Lqa String Ascii Sorted
  Permutation.
Import ListNotations.

Set Implicit Arguments.

(* ================================================================= *)
(** ** JavaScript numbers *)

Module JS.

Inductive num : Type :=
| NaN
| PInf
| NInf
| Fin (q : Q).

Definition zero : num := Fin 0.
Definition one : num := Fin 1.
Definition of_Z (z : Z) : num := Fin (inject_Z z).

(** Sign of a number that is not NaN, as the comparison with zero. *)
Definition sgn (a : num) : comparison :=
  match a with
  | NaN => Eq
  | PInf => Gt
  | NInf => Lt
  | Fin q => q ?= 0
  end.

Definition neg (a : num) : num :=
  match a with
  | NaN => NaN
  | PInf => NInf
  | NInf => PInf
  | Fin q => Fin (Qred (- q))
  end.

Definition add (a b : num) : num :=
  match a, b with
  | NaN, _ | _, NaN => NaN
  | PInf, NInf | NInf, PInf => NaN
  | PInf, _ | _, PInf => PInf
  | NInf, _ | _, NInf => NInf
  | Fin x, Fin y => Fin (Qred (x + y))
  end.

Definition sub (a b : num) : num :=
  match a, b with
  | NaN, _ | _, NaN => NaN
  | PInf, PInf | NInf, NInf => NaN
  | PInf, _ | _, NInf => PInf
  | NInf, _ | _, PInf => NInf
  | Fin x, Fin y => Fin (Qred (x - y))
  end.

Definition mul (a b : num) : num :=
  match a, b with
  | NaN, _ | _, NaN => NaN
  | Fin x, Fin y => Fin (Qred (x * y))
  | _, _ =>
      match sgn a, sgn b with
      | Eq, _ | _, Eq => NaN
      | Lt, Lt | Gt, Gt => PInf
      | _, _ => NInf
      end
  end.

(** Division; a zero divisor counts as +0. *)
Definition div (a b : num) : num :=
  match a, b with
  | NaN, _ | _, NaN => NaN
  | Fin _, (PInf | NInf) => zero
  | (PInf | NInf), (PInf | NInf) => NaN
  | Fin x, Fin y =>
      match y ?= 0 with
      | Eq => match x ?= 0 with Eq => NaN | Gt => PInf | Lt => NInf end
      | _ => Fin (Qred (x / y))
      end
  | _, Fin y =>
      match sgn a, y ?= 0 with
      | Gt, Lt | Lt, (Gt | Eq) => NInf
      | _, _ => PInf
      end
  end.

(** [a < b]; every comparison with NaN is false. *)
Definition ltb (a b : num) : bool :=
  match a, b with
  | NaN, _ | _, NaN => false
  | _, NInf => false
  | NInf, _ => true
  | PInf, _ => false
  | Fin _, PInf => true
  | Fin x, Fin y => match x ?= y with Lt => true | _ => false end
  end.

Definition eqb (a b : num) : bool :=
  match a, b with
  | PInf, PInf | NInf, NInf => true
  | Fin x, Fin y => Qeq_bool x y
  | _, _ => false
  end.

Definition gtb (a b : num) : bool := ltb b a.
Definition leb (a b : num) : bool := ltb a b || eqb a b.
Definition geb (a b : num) : bool := leb b a.

Definition isNaN (a : num) : bool :=
  match a with NaN => true | _ => false end.

Definition isFinite (a : num) : bool :=
  match a with Fin _ => true | _ => false end.

(** ToBoolean on a number: NaN and zero are falsy. *)
Definition truthy (a : num) : bool :=
  match a with
  | NaN => false
  | Fin q => negb (Qeq_bool q 0)
  | _ => true
  end.

Definition Math_abs (a : num) : num :=
  match a with
  | NaN => NaN
  | PInf | NInf => PInf
  | Fin q => Fin (Qred (Qabs q))
  end.

Definition Math_max (a b : num) : num :=
  match a, b with
  | NaN, _ | _, NaN => NaN
  | _, _ => if ltb a b then b else a
  end.

Definition Math_min (a b : num) : num :=
  match a, b with
  | NaN, _ | _, NaN => NaN
  | _, _ => if ltb b a then b else a
  end.

(** [Math.pow(x, 2)]. *)
Definition Math_pow2 (a : num) : num := mul a a.

(** *** [undefined] and the coercions the program relies on *)

Definition ToNumber (v : option num) : num :=
  match v with Some a => a | None => NaN end.

Definition ToBoolean (v : option num) : bool :=
  match v with Some a => truthy a | None => false end.

(** [v || d] on a possibly undefined number. *)
Definition or_else (v : option num) (d : num) : num :=
  if ToBoolean v then ToNumber v else d.

(** *** Arrays *)

(** [l[i]]: [None] is [undefined]. *)
Definition get {A} (l : list A) (i : Z) : option A :=
  if (i <? 0)%Z then None else nth_error l (Z.to_nat i).

Definition len {A} (l : list A) : Z := Z.of_nat (List.length l).

(** [l.slice(s, e)], negative arguments counting from the end. *)
Definition slice {A} (l : list A) (s e : Z) : list A :=
  let rel k := if (k <? 0)%Z then Z.max (len l + k) 0 else Z.min k (len l) in
  firstn (Z.to_nat (rel e - rel s)) (skipn (Z.to_nat (rel s)) l).

(** [l.slice(s)]. *)
Definition slice_from {A} (l : list A) (s : Z) : list A := slice l s (len l).

(** The indices [lo, lo+1, ..., hi-1] a counting [for] loop visits. *)
Definition range (lo hi : Z) : list Z :=
  map (fun k => (lo + Z.of_nat k)%Z) (seq 0 (Z.to_nat (hi - lo))).

(** [l.map((val, i) => f val i)]. *)
Definition mapi {A B} (f : A -> Z -> B) (l : list A) : list B :=
  map (fun p => f (snd p) (fst p)) (combine (range 0 (len l)) l).

(** [l.reduce((a, b) => a + b, 0)]. *)
Definition sum (l : list num) : num := fold_left add l zero.

End JS.

Import JS.

Declare Scope num_scope.
Delimit Scope num_scope with num.
Bind Scope num_scope with num.
Infix "+" := add : num_scope.
Infix "-" := sub : num_scope.
Infix "*" := mul : num_scope.
Infix "/" := div : num_scope.
Infix "<?" := ltb : num_scope.
Infix ">?" := gtb : num_scope.
Infix "<=?" := leb : num_scope.
Infix ">=?" := geb : num_scope.
Notation "l .[ i ]" := (ToNumber (get l i))
  (at level 1, left associativity, format "l .[ i ]") : num_scope.

(* ================================================================= *)
(** ** The runtime: what the engine calls and does not define

    [Math.sqrt] and [Math.tanh] have no rational values in general and
    [Math.random] is a source of draws; the engine is parameterised by
    them.  The [n]-th call of [Math.random] returns [random_draw n]. *)

Class Runtime : Type := {
  Math_sqrt : num -> num;
  Math_tanh : num -> num;
  random_draw : nat -> Q
}.

(** A computation of the engine: it reads the number of draws made so
    far, and either returns a value with the new count or throws (a
    property read on [undefined]). *)

Inductive result (A : Type) : Type :=
| Ok (a : A)
| TypeError.

Arguments TypeError {A}.

Definition M (A : Type) : Type := nat -> result (A * nat).

Definition ret {A} (a : A) : M A := fun n => Ok (a, n).

Definition bind {A B} (m : M A) (k : A -> M B) : M B :=
  fun n => match m n with
           | Ok (a, n') => k a n'
           | TypeError => TypeError
           end.

Notation "x <- m ;; k" := (bind m (fun x => k))
  (at level 61, m at next level, right associativity).

(** [o.p] where [o] may be [undefined]. *)
Definition field {A B} (o : option A) (p : A -> B) : M B :=
  match o with
  | Some a => ret (p a)
  | None => fun _ => TypeError
  end.

Definition Math_random {RT : Runtime} : M num :=
  fun n => Ok (Fin (random_draw n), S n).

(** [l.map(f)] for an effectful callback, left to right. *)
Fixpoint mapM {A B} (f : A -> M B) (l : list A) : M (list B) :=
  match l with
  | [] => ret []
  | a :: l' => b <- f a ;; bs <- mapM f l' ;; ret (b :: bs)
  end.

(** [l.sort(cmp)]: a stable sort; a comparator result that is NaN counts
    as zero.  For a comparator that is a total preorder on the elements
    every stable sort returns this list. *)
Fixpoint insert {A} (cmp : A -> A -> num) (x : A) (l : list A) : list A :=
  match l with
  | [] => [x]
  | y :: l' => if (cmp x y >? zero)%num then y :: insert cmp x l' else x :: l
  end.

Definition sort {A} (cmp : A -> A -> num) (l : list A) : list A :=
  fold_right (insert cmp) [] l.

(** [s.replace(pat, rep)] with a string pattern: the first occurrence. *)
Fixpoint replace (pat rep s : string) : string :=
  if String.prefix pat s then
    (rep ++ String.substring (String.length pat)
              (String.length s - String.length pat) s)%string
  else match s with
       | EmptyString => EmptyString
       | String c s' => String c (replace pat rep s')
       end.

(* ================================================================= *)
(** ** Data model (types/stock) *)

Module HistoricalData.
Record t : Type := mk {
  date : string;
  open : num;
  high : num;
  low : num;
  close : num;
  volume : num
}.
End HistoricalData.

Module PredictionData.
Record t : Type := mk {
  date : string;
  actual : num;
  predicted : num;
  confidence : num
}.
End PredictionData.

Inductive recommendation : Type := BUY | SELL | HOLD.

Module InvestmentRecommendation.
Record t : Type := mk {
  symbol : string;
  name : string;
  recommendation : recommendation;
  targetPrice : num;
  confidence : num;
  reason : string
}.
End InvestmentRecommendation.

Record band : Type := mkBand { upper : num; middle : num; lower : num }.

Module MACD.
Record t : Type := mk {
  macd : list num;
  signal : list num;
  histogram : list num
}.
End MACD.

(* ================================================================= *)
(** ** class MLStockPredictor *)

Open Scope num_scope.

(** The keys of the [features] and [weights] objects, in insertion order. *)
Module Key.
Inductive t : Type :=
| priceToSMA20 | priceToSMA50 | smaRatio | rsi | macdSignal
| bollingerPosition | volumeRatio | momentum | volatility.
End Key.

Section Engine.

Context {RT : Runtime}.

(** *** Indicators *)

Definition calculateMovingAverage (data : list num) (window : Z) : list num :=
  map (fun i =>
         if (i <? window - 1)%Z then data.[i]
         else sum (slice data (i - window + 1) (i + 1)) / of_Z window)
      (range 0 (len data)).

(** The two arrays the first loop of [calculateRSI] fills. *)
Definition rsi_gains (prices : list num) : list num :=
  map (fun i => let change := prices.[i] - prices.[i - 1] in
                if change >? zero then change else zero)
      (range 1 (len prices)).

Definition rsi_losses (prices : list num) : list num :=
  map (fun i => let change := prices.[i] - prices.[i - 1] in
                if change <? zero then Math_abs change else zero)
      (range 1 (len prices)).

Definition calculateRSI (prices : list num) (period : Z) : list num :=
  let gains := rsi_gains prices in
  let losses := rsi_losses prices in
  map (fun i =>
         if (i <? period - 1)%Z then Fin 50
         else
           let avgGain := sum (slice gains (i - period + 1) (i + 1)) / of_Z period in
           let avgLoss := sum (slice losses (i - period + 1) (i + 1)) / of_Z period in
           let rs := avgGain / or_else (Some avgLoss) (Fin 0.01) in
           Fin 100 - Fin 100 / (one + rs))
      (range 0 (len gains)).

(** The loop of [calculateEMA]; [prev] is [ema[i - 1]], the entry pushed
    last. *)
Fixpoint ema_loop (multiplier prev : num) (rest : list num) : list num :=
  match rest with
  | [] => []
  | p :: rest' =>
      let e := p * multiplier + prev * (one - multiplier) in
      e :: ema_loop multiplier e rest'
  end.

(** The seed is [prices[0]]; on an empty array, which no caller passes,
    it is [undefined], kept here as the NaN every later use turns it
    into. *)
Definition calculateEMA (prices : list num) (period : Z) : list num :=
  let multiplier := Fin 2 / of_Z (period + 1) in
  let first := prices.[0] in
  first :: ema_loop multiplier first (tl prices).

Definition calculateMACD (prices : list num) : MACD.t :=
  let ema12 := calculateEMA prices 12 in
  let ema26 := calculateEMA prices 26 in
  let macd := mapi (fun val i => val - ema26.[i]) ema12 in
  let signal := calculateEMA macd 9 in
  let histogram := mapi (fun val i => val - signal.[i]) macd in
  MACD.mk macd signal histogram.

Definition calculateBollingerBands (prices : list num) (period : Z)
    (stdDev : num) : list band :=
  let ma := calculateMovingAverage prices period in
  map (fun i =>
         if (i <? period - 1)%Z then mkBand prices.[i] prices.[i] prices.[i]
         else
           let slice := slice prices (i - period + 1) (i + 1) in
           let mean := ma.[i] in
           let variance :=
             fold_left (fun sum price => sum + Math_pow2 (price - mean))
                       slice zero / of_Z period in
           let standardDeviation := Math_sqrt variance in
           mkBand (mean + standardDeviation * stdDev)
                  mean
                  (mean - standardDeviation * stdDev))
      (range 0 (len prices)).

(** [!isNaN(val) && isFinite(val) && val > 0] *)
Definition valid_price (val : num) : bool :=
  negb (isNaN val) && isFinite val && (val >? zero).

(** [!isNaN(vol) && isFinite(vol) && vol >= 0] *)
Definition valid_volume (vol : num) : bool :=
  negb (isNaN vol) && isFinite vol && (vol >=? zero).

Definition validateData (data : list num) : bool :=
  (len data >? 0)%Z && forallb valid_price data.

Definition calculateVolatility (prices : list num) : num :=
  if (len prices <? 2)%Z then Fin 0.02
  else
    let returns :=
      flat_map (fun i =>
                  if prices.[i - 1] >? zero
                  then [(prices.[i] - prices.[i - 1]) / prices.[i - 1]]
                  else [])
               (range 1 (len prices)) in
    if (len returns =? 0)%Z then Fin 0.02
    else
      let mean := sum returns / of_Z (len returns) in
      let variance :=
        fold_left (fun sum ret => sum + Math_pow2 (ret - mean)) returns zero
        / of_Z (len returns) in
      Math_sqrt variance.

(** *** The next-day predictor *)

(** The [features] object of [predictNextDay], as its entries in
    insertion order. *)
Definition features (prices volumes : list num) : list (Key.t * num) :=
  let sma20 := calculateMovingAverage prices 20 in
  let sma50 := calculateMovingAverage prices 50 in
  let rsi := calculateRSI prices 14 in
  let macd := calculateMACD prices in
  let bollinger := calculateBollingerBands prices 20 (Fin 2) in
  let lastIndex := (len prices - 1)%Z in
  let currentPrice := prices.[lastIndex] in
  [ (Key.priceToSMA20,
     if sma20.[lastIndex] >? zero then currentPrice / sma20.[lastIndex] else one);
    (Key.priceToSMA50,
     if sma50.[lastIndex] >? zero then currentPrice / sma50.[lastIndex] else one);
    (Key.smaRatio,
     if sma50.[lastIndex] >? zero then sma20.[lastIndex] / sma50.[lastIndex] else one);
    (Key.rsi,
     if isFinite rsi.[lastIndex] then rsi.[lastIndex] / Fin 100 else Fin 0.5);
    (Key.macdSignal,
     if (MACD.macd macd).[lastIndex] >? (MACD.signal macd).[lastIndex]
     then one else Fin (-1));
    (Key.bollingerPosition,
     match get bollinger lastIndex with
     | Some b =>
         if (b.(upper) - b.(lower)) >? zero
         then (currentPrice - b.(lower)) / (b.(upper) - b.(lower))
         else Fin 0.5
     | None => Fin 0.5
     end);
    (Key.volumeRatio,
     if (len volumes >? 20)%Z && (volumes.[len volumes - 1] >? zero)
     then volumes.[len volumes - 1] / (sum (slice_from volumes (-20)) / Fin 20)
     else one);
    (Key.momentum,
     if (len prices >? 10)%Z && (prices.[lastIndex - 10] >? zero)
     then (prices.[lastIndex] - prices.[lastIndex - 10]) / prices.[lastIndex - 10]
     else zero);
    (Key.volatility, calculateVolatility (slice_from prices (-20))) ].

Definition weights (key : Key.t) : num :=
  match key with
  | Key.priceToSMA20 => Fin 0.18
  | Key.priceToSMA50 => Fin 0.15
  | Key.smaRatio => Fin 0.20
  | Key.rsi => Fin (-0.10)
  | Key.macdSignal => Fin 0.12
  | Key.bollingerPosition => Fin (-0.08)
  | Key.volumeRatio => Fin 0.08
  | Key.momentum => Fin 0.28
  | Key.volatility => Fin (-0.09)
  end.

(** [Object.entries(features).forEach(...)], from [prediction = 0]. *)
Definition weighted_sum (entries : list (Key.t * num)) : num :=
  fold_left (fun prediction entry =>
               let '(key, value) := entry in
               if isFinite value then prediction + value * weights key
               else prediction)
            entries zero.

(** [historicalData[historicalData.length - 1]?.close] *)
Definition last_close (historicalData : list HistoricalData.t) : option num :=
  option_map HistoricalData.close
             (get historicalData (len historicalData - 1)).

Definition predictNextDay (historicalData : list HistoricalData.t) : M num :=
  if (len historicalData <? 50)%Z then
    let lastPrice := last_close historicalData in
    ret (if ToBoolean lastPrice && negb (isNaN (ToNumber lastPrice))
         then ToNumber lastPrice else Fin 100)
  else
    let prices := filter valid_price (map HistoricalData.close historicalData) in
    if negb (validateData prices) then
      ret (or_else (last_close historicalData) (Fin 100))
    else
      let volumes := filter valid_volume (map HistoricalData.volume historicalData) in
      let lastIndex := (len prices - 1)%Z in
      let currentPrice := get prices lastIndex in
      if negb (ToBoolean currentPrice) || isNaN (ToNumber currentPrice)
         || (ToNumber currentPrice <=? zero) then
        ret (or_else (last_close historicalData) (Fin 100))
      else
        let currentPrice := ToNumber currentPrice in
        let prediction := weighted_sum (features prices volumes) in
        let changePercent := Math_tanh prediction * Fin 0.04 in
        let predictedPrice := currentPrice * (one + changePercent) in
        random <- Math_random ;;
        let noise := (random - Fin 0.5) * Fin 0.008 in
        let finalPrediction := predictedPrice * (one + noise) in
        let minPrice := currentPrice * Fin 0.92 in
        let maxPrice := currentPrice * Fin 1.08 in
        ret (Math_max minPrice (Math_min maxPrice finalPrediction)).

(** *** The backtest generator *)

(** [Math.max(0.65, Math.min(0.95, 1 - avgError * 8))] over the last ten
    entries already pushed. *)
Definition backtest_confidence (predictions : list PredictionData.t) : num :=
  let recentPredictions := slice_from predictions (-10) in
  let avgError :=
    if (len recentPredictions >? 0)%Z then
      fold_left (fun sum p =>
                   sum + Math_abs (PredictionData.actual p - PredictionData.predicted p)
                         / PredictionData.actual p)
                recentPredictions zero
      / of_Z (len recentPredictions)
    else Fin 0.02 in
  Math_max (Fin 0.65) (Math_min (Fin 0.95) (one - avgError * Fin 8)).

(** The [for] loop of [generatePredictions] over the indices still to
    visit, [predictions] being the array built so far. *)
Fixpoint backtest (historicalData : list HistoricalData.t)
    (actualPrices : list num) (todo : list Z)
    (predictions : list PredictionData.t) : M (list PredictionData.t) :=
  match todo with
  | [] => ret predictions
  | i :: todo' =>
      let dataUpToPoint := slice historicalData 0 i in
      predicted <- predictNextDay dataUpToPoint ;;
      let actual := actualPrices.[i] in
      if negb (isNaN actual) && negb (isNaN predicted)
         && (actual >? zero) && (predicted >? zero) then
        let confidence := backtest_confidence predictions in
        date <- field (get historicalData i) HistoricalData.date ;;
        backtest historicalData actualPrices todo'
          (predictions ++ [PredictionData.mk date actual predicted confidence])
      else
        backtest historicalData actualPrices todo' predictions
  end.

Definition generatePredictions (historicalData : list HistoricalData.t)
    (days : Z) : M (list PredictionData.t) :=
  let actualPrices := filter valid_price (map HistoricalData.close historicalData) in
  if (len actualPrices <? 50)%Z then ret []
  else
    let startIndex := Z.max 50 (len historicalData - days) in
    backtest historicalData actualPrices
             (range startIndex (len historicalData)) [].

(** *** The recommendation engine *)

(** [score += d; reasons.push(msg)] *)
Definition signal_hit (acc : Z * list string) (d : Z) (msg : string)
  : Z * list string :=
  ((fst acc + d)%Z, snd acc ++ [msg]).

(** The five signal groups, lines 275-341: the score and the reasons. *)
Definition score_signals (prices : list num) (predictedPrice : num)
  : Z * list string :=
  let currentPrice := prices.[len prices - 1] in
  let sma20 := calculateMovingAverage prices 20 in
  let sma50 := calculateMovingAverage prices 50 in
  let rsi := calculateRSI prices 14 in
  let macd := calculateMACD prices in
  let lastIndex := (len prices - 1)%Z in
  let acc := (0%Z, []) in
  let priceChange := (predictedPrice - currentPrice) / currentPrice in
  let acc :=
    if priceChange >? Fin 0.025 then
      signal_hit acc 4 "Strong AI price prediction (+2.5%+)"
    else if priceChange >? Fin 0.01 then
      signal_hit acc 2 "Positive AI price prediction"
    else if priceChange <? Fin (-0.025) then
      signal_hit acc (-4) "Negative AI price prediction (-2.5%+)"
    else if priceChange <? Fin (-0.01) then
      signal_hit acc (-2) "Weak AI price prediction"
    else acc in
  let acc :=
    if (sma20.[lastIndex] >? sma50.[lastIndex]) && (currentPrice >? sma20.[lastIndex]) then
      signal_hit acc 3 "Bullish trend (above moving averages)"
    else if (sma20.[lastIndex] <? sma50.[lastIndex]) && (currentPrice <? sma20.[lastIndex]) then
      signal_hit acc (-3) "Bearish trend (below moving averages)"
    else acc in
  let currentRSI := rsi.[lastIndex] in
  let acc :=
    if currentRSI <? Fin 30 then
      signal_hit acc 2 "Oversold condition (RSI < 30)"
    else if currentRSI >? Fin 70 then
      signal_hit acc (-2) "Overbought condition (RSI > 70)"
    else if (currentRSI >=? Fin 40) && (currentRSI <=? Fin 60) then
      signal_hit acc 1 "Neutral RSI levels"
    else acc in
  let acc :=
    if (MACD.macd macd).[lastIndex] >? (MACD.signal macd).[lastIndex] then
      signal_hit acc 1 "Positive MACD crossover"
    else
      signal_hit acc (-1) "Negative MACD signal" in
  let acc :=
    if (len prices >? 10)%Z then
      let momentum := (currentPrice - prices.[lastIndex - 10]) / prices.[lastIndex - 10] in
      if momentum >? Fin 0.08 then
        signal_hit acc 2 "Strong positive momentum (8%+)"
      else if momentum >? Fin 0.03 then
        signal_hit acc 1 "Positive momentum"
      else if momentum <? Fin (-0.08) then
        signal_hit acc (-2) "Strong negative momentum (-8%+)"
      else if momentum <? Fin (-0.03) then
        signal_hit acc (-1) "Negative momentum"
      else acc
    else acc in
  acc.

(** Lines 343-356: the category and the confidence of a score. *)
Definition classify (score : Z) : recommendation * num :=
  if (score >=? 5)%Z then
    (BUY, Math_min (Fin 0.92) (Fin 0.75 + of_Z score * Fin 0.03))
  else if (score <=? -4)%Z then
    (SELL, Math_min (Fin 0.88) (Fin 0.70 + of_Z (Z.abs score) * Fin 0.03))
  else
    (HOLD, Fin 0.70 + of_Z (Z.abs score) * Fin 0.02).

(** [s || d] on strings: the empty string is falsy. *)
Definition or_else_string (s d : string) : string :=
  match s with EmptyString => d | _ => s end.

(** The callback of [stocksData.map]. *)
Definition recommend (stock : string * list HistoricalData.t)
  : M InvestmentRecommendation.t :=
  let '(symbol, data) := stock in
  if (len data <? 50)%Z then
    let lastPrice := last_close data in
    ret (InvestmentRecommendation.mk symbol (replace ".NS" "" symbol) HOLD
           (if ToBoolean lastPrice && negb (isNaN (ToNumber lastPrice))
            then ToNumber lastPrice else Fin 100)
           (Fin 0.5) "Insufficient data for analysis")
  else
    let prices := filter valid_price (map HistoricalData.close data) in
    if negb (validateData prices) then
      ret (InvestmentRecommendation.mk symbol (replace ".NS" "" symbol) HOLD
             (Fin 100) (Fin 0.5) "Invalid price data")
    else
      predictedPrice <- predictNextDay data ;;
      let '(score, reasons) := score_signals prices predictedPrice in
      let '(recommendation, confidence) := classify score in
      ret (InvestmentRecommendation.mk symbol (replace ".NS" "" symbol)
             recommendation
             (Math_max predictedPrice one)
             (Math_min confidence (Fin 0.95))
             (or_else_string (String.concat ", " (slice reasons 0 2))
                             "Mixed technical signals")).

Definition priorityOrder (r : recommendation) : Z :=
  match r with BUY => 3 | HOLD => 2 | SELL => 1 end.

(** The comparator handed to [sort]. *)
Definition by_priority_then_confidence (a b : InvestmentRecommendation.t) : num :=
  let aPriority := priorityOrder (InvestmentRecommendation.recommendation a) in
  let bPriority := priorityOrder (InvestmentRecommendation.recommendation b) in
  if negb (aPriority =? bPriority)%Z then of_Z (bPriority - aPriority)
  else InvestmentRecommendation.confidence b - InvestmentRecommendation.confidence a.

Definition generateInvestmentRecommendations
    (stocksData : list (string * list HistoricalData.t))
  : M (list InvestmentRecommendation.t) :=
  recs <- mapM recommend stocksData ;;
  ret (sort by_priority_then_confidence recs).

End Engine.

Close Scope num_scope.

(* ================================================================= *)
(** ** A runtime to run the engine with

    Rational stand-ins for the two library functions, exact where the
    true value is rational at the points used below and monotone and
    bounded like the true functions elsewhere, and a fixed cycle of
    draws in [0, 1). *)

Definition sample_tanh (x : num) : num :=
  match x with
  | NaN => NaN
  | PInf => Fin 1
  | NInf => Fin (-1)
  | Fin q => Fin (Qred (q / (1 + Qabs q)))
  end.

Definition sample_sqrt (x : num) : num :=
  match x with
  | NaN | NInf => NaN
  | PInf => PInf
  | Fin q =>
      match q ?= 0 with
      | Lt => NaN
      | _ => Fin (Qred (Z.sqrt (Qnum q * Zpos (Qden q) * 1000000000000)
                        # (Qden q * 1000000)))
      end
  end.

Definition sample_draw (n : nat) : Q := Z.of_nat (n mod 10) # 10.

#[local] Instance sample_runtime : Runtime := {|
  Math_sqrt := sample_sqrt;
  Math_tanh := sample_tanh;
  random_draw := sample_draw
|}.

(** A bar whose open, high and low equal its close. *)
Definition bar (close volume : num) : HistoricalData.t :=
  HistoricalData.mk "2024-01-01" close close close close volume.

(** [n] bars with closes [c, c + step, c + 2 step, ...]. *)
Definition ramp (c step : Z) (n : nat) : list HistoricalData.t :=
  map (fun k => bar (of_Z (c + step * Z.of_nat k)) (Fin 1000000)) (seq 0 n).

(** *** Series with closes that are not finite *)

(** Fifty bars whose close is +Infinity, then 51 bars closing at 100. *)
Definition infinite_then_flat : list HistoricalData.t :=
  repeat (bar PInf (Fin 1000)) 50 ++ repeat (bar (Fin 100) (Fin 1000)) 51.

(** Forty-nine bars whose close is NaN, one whose close is +Infinity,
    then 51 bars closing at 200. *)
Definition gap_then_flat : list HistoricalData.t :=
  repeat (bar NaN (Fin 1000)) 49 ++ [bar PInf (Fin 1000)]
  ++ repeat (bar (Fin 200) (Fin 1000)) 51.

(** What the guard of the backtest loop lets through: an actual price
    that is finite and positive, and a prediction that is not NaN and
    is greater than zero. *)
Definition passes_guard (p : PredictionData.t) : Prop :=
  (exists a, PredictionData.actual p = Fin a /\ 0 < a)
  /\ PredictionData.predicted p <> NaN
  /\ gtb (PredictionData.predicted p) zero = true.

(** *** The specification's words for the backtest generator *)

(** The skip test as the code has it: an entry is skipped when its
    actual or its predicted value is NaN or is not positive.  (The
    specification says: not finite or not positive.) *)
Definition skip_entry (actual predicted : num) : bool :=
  isNaN actual || isNaN predicted
  || (actual <=? zero)%num || (predicted <=? zero)%num.

(** For each index in turn: run the predictor on the strict prefix
    [series[0..i)], pair the result with [actualPrices[i]] when there is
    one, and append the pair under the date of bar [i] unless it is
    skipped. *)
Fixpoint backtest_spec {RT : Runtime} (series : list HistoricalData.t)
    (actualPrices : list num) (indices : list Z)
    (emitted : list PredictionData.t) : M (list PredictionData.t) :=
  match indices with
  | [] => ret emitted
  | i :: indices' =>
      predicted <- predictNextDay (firstn (Z.to_nat i) series) ;;
      match get actualPrices i, get series i with
      | Some actual, Some b =>
          if skip_entry actual predicted
          then backtest_spec series actualPrices indices' emitted
          else backtest_spec series actualPrices indices'
                 (emitted ++ [PredictionData.mk (HistoricalData.date b)
                                actual predicted (backtest_confidence emitted)])
      | _, _ => backtest_spec series actualPrices indices' emitted
      end
  end.

(** Nothing below 50 valid closes; otherwise the indices from
    max(50, length - days) to length - 1. *)
Definition generatePredictions_spec {RT : Runtime}
    (series : list HistoricalData.t) (days : Z) : M (list PredictionData.t) :=
  let actualPrices := filter valid_price (map HistoricalData.close series) in
  if (List.length actualPrices <? 50)%nat then ret []
  else backtest_spec series actualPrices
         (range (Z.max 50 (len series - days)) (len series)) [].

(** *** The specification's words for the Bollinger bands *)

(** The [period] prices that end at index [i]. *)
Definition trailing_window (prices : list num) (period i : Z) : list num :=
  firstn (Z.to_nat period) (skipn (Z.to_nat (i + 1 - period)) prices).

(** Arithmetic mean of a window. *)
Definition mean_of (xs : list num) : num := (sum xs / of_Z (len xs))%num.

(** Population variance around [mean]: the squared deviations summed and
    divided by the number of values. *)
Definition population_variance (xs : list num) (mean : num) : num :=
  (fold_left (fun acc x => acc + Math_pow2 (x - mean)) xs zero
   / of_Z (len xs))%num.

(** *** The specification's words for the recommendation list *)

(** The confidence range of each category on the scored path. *)
Definition in_confidence_range (r : InvestmentRecommendation.t) : Prop :=
  exists c,
    InvestmentRecommendation.confidence r = Fin c
    /\ match InvestmentRecommendation.recommendation r with
       | BUY => 0.90 <= c <= 0.92
       | SELL => 0.82 <= c <= 0.88
       | HOLD => 0.70 <= c <= 0.78
       end.

(** A stock that is scored: at least 50 bars, and price data that pass
    the validation. *)
Definition scored (stock : string * list HistoricalData.t) : Prop :=
  (50 <= len (snd stock))%Z
  /\ validateData (filter valid_price (map HistoricalData.close (snd stock)))
     = true.

(** The confidence of an entry as a rational (the engine only produces
    finite confidences). *)
Definition confidence_of (r : InvestmentRecommendation.t) : Q :=
  match InvestmentRecommendation.confidence r with
  | Fin c => c
  | _ => 0
  end.

(** The entry has a finite confidence. *)
Definition finite_confidence (r : InvestmentRecommendation.t) : Prop :=
  exists c, InvestmentRecommendation.confidence r = Fin c.

(** [a] may stand before [b] in the ranking: a higher priority, or the
    same priority and a confidence at least as high. *)
Definition ranks_before (a b : InvestmentRecommendation.t) : Prop :=
  (priorityOrder (InvestmentRecommendation.recommendation b)
   < priorityOrder (InvestmentRecommendation.recommendation a))%Z
  \/ (priorityOrder (InvestmentRecommendation.recommendation a)
      = priorityOrder (InvestmentRecommendation.recommendation b)
      /\ confidence_of b <= confidence_of a).

(* ================================================================= *)
(** ** Callers of the engine *)

(** [PredictionChart]: the accuracy shown above the chart,
    [data.length > 0 ? (data.reduce(...) / data.length * 100) : 0]. *)
Definition accuracy (data : list PredictionData.t) : num :=
  if (len data >? 0)%Z then
    (fold_left (fun sum item =>
                  let error := Math_abs (PredictionData.actual item
                                         - PredictionData.predicted item)
                               / PredictionData.actual item in
                  sum + (one - error))
               data zero
     / of_Z (len data) * Fin 100)%num
  else zero.

(** [App]: the average confidence of the performance panel, shown when
    [predictions.length > 0]:
    [(predictions.reduce((sum, p) => sum + p.confidence, 0)
      / predictions.length) * 100]. *)
Definition average_confidence (predictions : list PredictionData.t) : num :=
  (fold_left (fun sum p => sum + PredictionData.confidence p) predictions zero
   / of_Z (len predictions) * Fin 100)%num.

(** [InvestmentRecommendations]: the colour of a confidence. *)
Definition getConfidenceColor (confidence : num) : string :=
  if (confidence >=? Fin 0.8)%num then "text-green-600"
  else if (confidence >=? Fin 0.6)%num then "text-yellow-600"
  else "text-red-600".



(** [StockSelector.handleStockSelect]: the new list of recent searches,
    [[validatedSymbol, ...recentSearches.filter(s => s !== validatedSymbol)]
     .slice(0, 5)]. *)
Definition add_recent (validatedSymbol : string) (recentSearches : list string)
  : list string :=
  slice (validatedSymbol
         :: filter (fun s => negb (String.eqb s validatedSymbol)) recentSearches)
        0 5.

(** [StockSelector.handleSearch]: a search result. *)
Module Suggestion.
Record t : Type := mk {
  symbol : string;
  name : string
}.
End Suggestion.

(** [l.findIndex(f)]: the first index whose element satisfies [f], or
    -1. *)
Fixpoint findIndex_from {A} (f : A -> bool) (l : list A) (i : Z) : Z :=
  match l with
  | [] => (-1)%Z
  | a :: l' => if f a then i else findIndex_from f l' (i + 1)
  end.

Definition findIndex {A} (f : A -> bool) (l : list A) : Z :=
  findIndex_from f l 0.

(** [l.filter((x, index) => f x index)]. *)
Definition filteri {A} (f : A -> Z -> bool) (l : list A) : list A :=
  map snd (filter (fun p => f (snd p) (fst p)) (combine (range 0 (len l)) l)).

(** [StockSelector.handleSearch]: the API results and the local
    suggestions combined, deduplicated by symbol and cut to 15. *)
Definition merge_results (apiResults localSuggestions : list Suggestion.t)
  : list Suggestion.t :=
  let combined := apiResults ++ localSuggestions in
  let unique :=
    filteri (fun stock index =>
               (index =? findIndex
                           (fun s => String.eqb (Suggestion.symbol s)
                                                (Suggestion.symbol stock))
                           combined)%Z)
            combined in
  slice unique 0 15.

(* ================================================================= *)
(** ** Predicates of the statements *)

(** A finite number between two bounds. *)
Definition within (lo hi : Q) (a : num) : Prop :=
  exists q, a = Fin q /\ lo <= q <= hi.

(** A finite number. *)
Definition finite (a : num) : Prop := exists q, a = Fin q.


(** The prices and multipliers the statements on RSI and on the
    Bollinger bands range over: finite, of magnitude at most 10^12.
    The program's numbers are binary64; inside this range no sum of
    price changes and no sum of squared deviations leaves the finite
    numbers. *)
Definition price_limit : Q := 1000000000000.

Definition price_sized (a : num) : Prop :=
  within (- price_limit) price_limit a.

(** A relative error that is not negative: a finite number that is not
    negative, or +Infinity. *)
Definition nonneg_or_infinite (a : num) : Prop :=
  a = PInf \/ exists q, a = Fin q /\ 0 <= q.

(** What [recommend] returns without scoring: a HOLD of confidence
    0.5. *)
Definition unscored_hold (r : InvestmentRecommendation.t) : Prop :=
  InvestmentRecommendation.recommendation r = HOLD
  /\ InvestmentRecommendation.confidence r = Fin 0.5.

(** A symbol with no dot in it. *)
Fixpoint no_dot (s : string) : bool :=
  match s with
  | EmptyString => true
  | String c s' => negb (Ascii.eqb c ".") && no_dot s'
  end.

(** The five signal groups of [score_signals], each as the update it
    makes to the score and the reasons. *)
Definition price_group (priceChange : num) (acc : Z * list string)
  : Z * list string :=
  if (priceChange >? Fin 0.025)%num then
    signal_hit acc 4 "Strong AI price prediction (+2.5%+)"
  else if (priceChange >? Fin 0.01)%num then
    signal_hit acc 2 "Positive AI price prediction"
  else if (priceChange <? Fin (-0.025))%num then
    signal_hit acc (-4) "Negative AI price prediction (-2.5%+)"
  else if (priceChange <? Fin (-0.01))%num then
    signal_hit acc (-2) "Weak AI price prediction"
  else acc.

Definition trend_group (sma20 sma50 currentPrice : num)
    (acc : Z * list string) : Z * list string :=
  if (sma20 >? sma50)%num && (currentPrice >? sma20)%num then
    signal_hit acc 3 "Bullish trend (above moving averages)"
  else if (sma20 <? sma50)%num && (currentPrice <? sma20)%num then
    signal_hit acc (-3) "Bearish trend (below moving averages)"
  else acc.

Definition rsi_group (currentRSI : num) (acc : Z * list string)
  : Z * list string :=
  if (currentRSI <? Fin 30)%num then
    signal_hit acc 2 "Oversold condition (RSI < 30)"
  else if (currentRSI >? Fin 70)%num then
    signal_hit acc (-2) "Overbought condition (RSI > 70)"
  else if (currentRSI >=? Fin 40)%num && (currentRSI <=? Fin 60)%num then
    signal_hit acc 1 "Neutral RSI levels"
  else acc.

Definition macd_group (line signal : num) (acc : Z * list string)
  : Z * list string :=
  if (line >? signal)%num then signal_hit acc 1 "Positive MACD crossover"
  else signal_hit acc (-1) "Negative MACD signal".

Definition momentum_group (count : Z) (currentPrice earlier : num)
    (acc : Z * list string) : Z * list string :=
  if (count >? 10)%Z then
    let momentum := ((currentPrice - earlier) / earlier)%num in
    if (momentum >? Fin 0.08)%num then
      signal_hit acc 2 "Strong positive momentum (8%+)"
    else if (momentum >? Fin 0.03)%num then
      signal_hit acc 1 "Positive momentum"
    else if (momentum <? Fin (-0.08))%num then
      signal_hit acc (-2) "Strong negative momentum (-8%+)"
    else if (momentum <? Fin (-0.03))%num then
      signal_hit acc (-1) "Negative momentum"
    else acc
  else acc.

(** A reason that does not come from the RSI group. *)
Definition not_from_rsi (msg : string) : Prop :=
  msg <> "Oversold condition (RSI < 30)"%string
  /\ msg <> "Overbought condition (RSI > 70)"%string
  /\ msg <> "Neutral RSI levels"%string.

(** A score between two bounds with a number of reasons between two
    bounds, none of them from the RSI group. *)
Definition score_invariant (lo hi : Z) (m n : nat) (acc : Z * list string)
  : Prop :=
  (lo <= fst acc <= hi)%Z
  /\ (m <= List.length (snd acc) <= n)%nat
  /\ Forall not_from_rsi (snd acc).

(** -Infinity, or a finite number that is at most [b]. *)
Definition at_most (b : Q) (a : num) : Prop :=
  a = NInf \/ exists q, a = Fin q /\ q <= b.

(** A band whose three values are finite and in order. *)
Definition ordered_band (b : band) : Prop :=
  exists l m u,
    lower b = Fin l /\ middle b = Fin m /\ upper b = Fin u /\ l <= m <= u.


(* ================================================================= *)
(** ** Arrays: lengths and reads *)

Lemma len_nonneg {A} (l : list A) : (0 <= len l)%Z.
Proof. unfold len. lia. Qed.

Lemma length_range (lo hi : Z) : List.length (range lo hi) = Z.to_nat (hi - lo).
Proof. unfold range. now rewrite length_map, length_seq. Qed.

Lemma len_range (lo hi : Z) : (lo <= hi)%Z -> len (range lo hi) = (hi - lo)%Z.
Proof. intros H. unfold len. rewrite length_range. lia. Qed.

Lemma get_lt {A} (l : list A) (i : Z) :
  (0 <= i < len l)%Z -> exists a, get l i = Some a.
Proof.
  intros [H0 H1]. unfold get, len in *.
  destruct (Z.ltb_spec i 0); [lia|].
  destruct (nth_error l (Z.to_nat i)) eqn:E; [eauto|].
  apply nth_error_None in E. lia.
Qed.

Lemma get_ge {A} (l : list A) (i : Z) : (len l <= i)%Z -> get l i = None.
Proof.
  intros H. unfold get, len in *.
  destruct (Z.ltb_spec i 0); [reflexivity|].
  apply nth_error_None. lia.
Qed.

Lemma get_Some_bounds {A} (l : list A) (i : Z) (a : A) :
  get l i = Some a -> (0 <= i < len l)%Z.
Proof.
  unfold get, len. destruct (Z.ltb_spec i 0); [discriminate|].
  intros E. assert (Z.to_nat i < List.length l)%nat.
  { apply nth_error_Some. congruence. }
  lia.
Qed.

Lemma get_map {A B} (f : A -> B) (l : list A) (i : Z) :
  get (map f l) i = option_map f (get l i).
Proof.
  unfold get. destruct (i <? 0)%Z; [reflexivity|]. apply nth_error_map.
Qed.

Lemma get_range (lo hi i : Z) :
  (0 <= i < hi - lo)%Z -> get (range lo hi) i = Some (lo + i)%Z.
Proof.
  intros H. unfold get, range.
  destruct (Z.ltb_spec i 0); [lia|].
  rewrite nth_error_map, nth_error_seq.
  destruct (Nat.ltb_spec (Z.to_nat i) (Z.to_nat (hi - lo))); [|lia].
  simpl. f_equal. lia.
Qed.

Lemma get_In {A} (l : list A) (i : Z) (a : A) : get l i = Some a -> In a l.
Proof.
  unfold get. destruct (i <? 0)%Z; [discriminate|]. apply nth_error_In.
Qed.

Lemma get_last {A} (l : list A) (d : A) :
  l <> [] -> get l (len l - 1) = Some (last l d).
Proof.
  intros Hne. destruct (exists_last Hne) as [l' [a ->]].
  rewrite last_last. unfold get, len. rewrite length_app. simpl.
  destruct (Z.ltb_spec (Z.of_nat (List.length l' + 1) - 1) 0); [lia|].
  replace (Z.to_nat (Z.of_nat (List.length l' + 1) - 1)) with (List.length l') by lia.
  now rewrite nth_error_app2, Nat.sub_diag by lia.
Qed.

Lemma slice_window {A} (l : list A) (period i : Z) :
  (1 <= period)%Z -> (period - 1 <= i < len l)%Z ->
  slice l (i - period + 1) (i + 1)
  = firstn (Z.to_nat period) (skipn (Z.to_nat (i + 1 - period)) l).
Proof.
  intros Hp Hi. unfold slice.
  destruct (Z.ltb_spec (i + 1) 0); [lia|].
  destruct (Z.ltb_spec (i - period + 1) 0); [lia|].
  rewrite !Z.min_l by lia.
  f_equal; [lia|]. f_equal. lia.
Qed.

Lemma length_window {A} (l : list A) (period i : Z) :
  (1 <= period)%Z -> (period - 1 <= i < len l)%Z ->
  len (firstn (Z.to_nat period) (skipn (Z.to_nat (i + 1 - period)) l)) = period.
Proof.
  intros Hp Hi. unfold len in *. rewrite length_firstn, length_skipn. lia.
Qed.

(* ================================================================= *)
(** ** The indicator library *)

Section Indicators.

Context {RT : Runtime}.

Lemma length_calculateMovingAverage (data : list num) (window : Z) :
  List.length (calculateMovingAverage data window) = List.length data.
Proof.
  unfold calculateMovingAverage. rewrite length_map, length_range.
  unfold len. lia.
Qed.

Lemma length_rsi_gains (prices : list num) :
  List.length (rsi_gains prices) = (List.length prices - 1)%nat.
Proof.
  unfold rsi_gains. rewrite length_map, length_range. unfold len. lia.
Qed.

Lemma length_calculateRSI (prices : list num) (period : Z) :
  List.length (calculateRSI prices period) = (List.length prices - 1)%nat.
Proof.
  unfold calculateRSI. rewrite length_map, length_range.
  unfold len. rewrite length_rsi_gains. lia.
Qed.

Lemma length_ema_loop (m prev : num) (rest : list num) :
  List.length (ema_loop m prev rest) = List.length rest.
Proof.
  revert prev. induction rest as [|p rest IH]; intros prev; simpl; [reflexivity|].
  now rewrite IH.
Qed.

Lemma length_calculateEMA (prices : list num) (period : Z) :
  prices <> [] ->
  List.length (calculateEMA prices period) = List.length prices.
Proof.
  intros Hne. unfold calculateEMA. simpl. rewrite length_ema_loop.
  destruct prices; [congruence|reflexivity].
Qed.

Lemma length_mapi {A B} (f : A -> Z -> B) (l : list A) :
  List.length (mapi f l) = List.length l.
Proof.
  unfold mapi. rewrite length_map, length_combine, length_range.
  unfold len. lia.
Qed.

Lemma calculateEMA_nonempty (prices : list num) (period : Z) :
  calculateEMA prices period <> [].
Proof. unfold calculateEMA. discriminate. Qed.

Lemma mapi_nonempty {A B} (f : A -> Z -> B) (l : list A) :
  l <> [] -> mapi f l <> [].
Proof.
  intros Hne E. apply (f_equal (@List.length B)) in E.
  rewrite length_mapi in E. destruct l; [congruence|discriminate].
Qed.

Lemma length_calculateMACD (prices : list num) :
  prices <> [] ->
  List.length (MACD.macd (calculateMACD prices)) = List.length prices
  /\ List.length (MACD.signal (calculateMACD prices)) = List.length prices
  /\ List.length (MACD.histogram (calculateMACD prices)) = List.length prices.
Proof.
  intros Hne. unfold calculateMACD.
  cbn [MACD.macd MACD.signal MACD.histogram].
  assert (Hm : List.length
                 (mapi (fun val i => (val - (calculateEMA prices 26).[i])%num)
                       (calculateEMA prices 12)) = List.length prices).
  { now rewrite length_mapi, length_calculateEMA. }
  repeat split.
  - exact Hm.
  - rewrite length_calculateEMA; [exact Hm|].
    apply mapi_nonempty, calculateEMA_nonempty.
  - now rewrite length_mapi.
Qed.

Lemma length_calculateBollingerBands (prices : list num) (period : Z) (sd : num) :
  List.length (calculateBollingerBands prices period sd) = List.length prices.
Proof.
  unfold calculateBollingerBands. rewrite length_map, length_range.
  unfold len. lia.
Qed.

End Indicators.

(* ================================================================= *)
(** ** RSI: length and alignment *)

Lemma get_rsi_gains (prices : list num) (i : Z) :
  (0 <= i < len prices - 1)%Z ->
  get (rsi_gains prices) i
  = Some (let change := (prices.[i + 1] - prices.[i])%num in
          if (change >? zero)%num then change else zero).
Proof.
  intros H. unfold rsi_gains. rewrite get_map, get_range by lia.
  cbn [option_map].
  replace (1 + i - 1)%Z with i by lia.
  now replace (1 + i)%Z with (i + 1)%Z by lia.
Qed.

Lemma get_rsi_losses (prices : list num) (i : Z) :
  (0 <= i < len prices - 1)%Z ->
  get (rsi_losses prices) i
  = Some (let change := (prices.[i + 1] - prices.[i])%num in
          if (change <? zero)%num then Math_abs change else zero).
Proof.
  intros H. unfold rsi_losses. rewrite get_map, get_range by lia.
  cbn [option_map].
  replace (1 + i - 1)%Z with i by lia.
  now replace (1 + i)%Z with (i + 1)%Z by lia.
Qed.

Lemma len_calculateRSI (prices : list num) (period : Z) :
  (1 <= len prices)%Z -> len (calculateRSI prices period) = (len prices - 1)%Z.
Proof.
  intros H. unfold len in *. rewrite length_calculateRSI. lia.
Qed.

(** The entry both callers read as [rsi[lastIndex]] does not exist. *)
Lemma calculateRSI_get_last (prices : list num) (period : Z) :
  get (calculateRSI prices period) (len prices - 1) = None.
Proof.
  destruct prices as [|p prices]; [reflexivity|].
  apply get_ge. unfold len. rewrite length_calculateRSI. simpl List.length. lia.
Qed.

Section RSIFeature.

Context {RT : Runtime}.

(** C5.  [calculateRSI] is not aligned with its input: whatever the
    prices and the period, its output has one entry fewer than the price
    array, so the entry at the last price index, which the predictor
    reads as [rsi[lastIndex]], is [undefined], and the [rsi] feature of
    every prediction is the fallback 0.5. *)
Theorem calculateRSI_last_index_undefined
    (prices volumes : list num) (period : Z) :
  List.length (calculateRSI prices period) = (List.length prices - 1)%nat
  /\ get (calculateRSI prices period) (len prices - 1) = None
  /\ forall v, In (Key.rsi, v) (features prices volumes) -> v = Fin 0.5.
Proof.
  split; [apply length_calculateRSI|]. split; [apply calculateRSI_get_last|].
  intros v Hin. unfold features in Hin. cbv zeta in Hin. cbn [In] in Hin.
  rewrite calculateRSI_get_last in Hin. cbn [ToNumber isFinite] in Hin.
  repeat (destruct Hin as [Hin|Hin]; [try discriminate Hin|]).
  - now inversion Hin.
  - contradiction.
Qed.

End RSIFeature.

(** C6.  For a price array of length n >= 1 the RSI array has length
    n - 1; entry i of the gains and losses arrays is computed from the
    prices at i and i + 1; and every RSI entry at an index below
    period - 1 is exactly 50. *)
Theorem calculateRSI_length_alignment_warmup (prices : list num) (period : Z) :
  (1 <= len prices)%Z ->
  len (calculateRSI prices period) = (len prices - 1)%Z
  /\ (forall i, (0 <= i < len prices - 1)%Z ->
        get (rsi_gains prices) i
        = Some (let change := (prices.[i + 1] - prices.[i])%num in
                if (change >? zero)%num then change else zero)
        /\ get (rsi_losses prices) i
           = Some (let change := (prices.[i + 1] - prices.[i])%num in
                   if (change <? zero)%num then Math_abs change else zero))
  /\ (forall i, (0 <= i < period - 1)%Z -> (i < len prices - 1)%Z ->
        get (calculateRSI prices period) i = Some (Fin 50)).
Proof.
  intros Hn. split; [now apply len_calculateRSI|]. split.
  - intros i Hi. split; [now apply get_rsi_gains | now apply get_rsi_losses].
  - intros i Hi Hlt. unfold calculateRSI.
    assert (Hg : len (rsi_gains prices) = (len prices - 1)%Z).
    { unfold len in *. rewrite length_rsi_gains. lia. }
    rewrite get_map, get_range by lia. cbn [option_map].
    destruct (Z.ltb_spec (0 + i) (period - 1)); [reflexivity|lia].
Qed.

Lemma calculateRSI_length_alignment_warmup_witness :
  len (calculateRSI [Fin 10; Fin 11; Fin 9; Fin 12] 3) = 3%Z
  /\ get (calculateRSI [Fin 10; Fin 11; Fin 9; Fin 12] 3) 1 = Some (Fin 50).
Proof.
  destruct (@calculateRSI_length_alignment_warmup
              [Fin 10; Fin 11; Fin 9; Fin 12] 3 ltac:(vm_compute; discriminate))
    as [Hlen [_ Hwarm]].
  split; [exact Hlen|].
  apply Hwarm; vm_compute; intuition discriminate.
Defined.

(* ================================================================= *)
(** ** Bollinger bands against the moving average *)

Section Bollinger.

Context {RT : Runtime}.

Lemma get_calculateMovingAverage (data : list num) (window i : Z) :
  (0 <= i < len data)%Z ->
  get (calculateMovingAverage data window) i
  = Some (if (i <? window - 1)%Z then (data.[i])%num
          else (sum (slice data (i - window + 1) (i + 1)) / of_Z window)%num).
Proof.
  intros H. unfold calculateMovingAverage.
  rewrite get_map, get_range by lia. cbn [option_map].
  now replace (0 + i)%Z with i by lia.
Qed.

(** C7.  At every index i >= period - 1 of the price array the middle
    band is the entry of the moving average of the same period at i,
    that entry is the arithmetic mean of the period prices ending at i,
    and the upper and lower bands are the middle plus and minus stdDev
    times the square root of the population variance (the squared
    deviations from the middle, divided by period) of those prices. *)
Theorem bollinger_middle_is_moving_average
    (prices : list num) (period : Z) (stdDev : num) (i : Z) :
  (1 <= period)%Z -> (period - 1 <= i < len prices)%Z ->
  let window := trailing_window prices period i in
  exists mean,
    get (calculateMovingAverage prices period) i = Some mean
    /\ mean = mean_of window
    /\ len window = period
    /\ get (calculateBollingerBands prices period stdDev) i
       = Some (let sigma := Math_sqrt (population_variance window mean) in
               mkBand (mean + sigma * stdDev)%num mean (mean - sigma * stdDev)%num).
Proof.
  intros Hp Hi window.
  assert (Hlen : len window = period).
  { unfold window, trailing_window. now apply length_window. }
  assert (Hma : get (calculateMovingAverage prices period) i
                = Some (sum window / of_Z period)%num).
  { rewrite get_calculateMovingAverage by lia.
    destruct (Z.ltb_spec i (period - 1)); [lia|].
    now rewrite slice_window by lia. }
  exists (sum window / of_Z period)%num.
  split; [exact Hma|]. split; [unfold mean_of; now rewrite Hlen|].
  split; [exact Hlen|].
  unfold calculateBollingerBands.
  rewrite get_map, get_range by lia. cbn [option_map].
  replace (0 + i)%Z with i by lia.
  destruct (Z.ltb_spec i (period - 1)); [lia|].
  rewrite Hma, slice_window by lia.
  unfold population_variance. rewrite Hlen. reflexivity.
Qed.

End Bollinger.

Lemma bollinger_middle_is_moving_average_witness :
  exists mean,
    get (calculateMovingAverage [Fin 2; Fin 4; Fin 4; Fin 6] 2) 3 = Some mean
    /\ mean = mean_of (trailing_window [Fin 2; Fin 4; Fin 4; Fin 6] 2 3)
    /\ len (trailing_window [Fin 2; Fin 4; Fin 4; Fin 6] 2 3) = 2%Z
    /\ get (calculateBollingerBands [Fin 2; Fin 4; Fin 4; Fin 6] 2 (Fin 2)) 3
       = Some (let sigma :=
                 Math_sqrt (population_variance
                              (trailing_window [Fin 2; Fin 4; Fin 4; Fin 6] 2 3) mean) in
               mkBand (mean + sigma * Fin 2)%num mean (mean - sigma * Fin 2)%num).
Proof.
  apply (@bollinger_middle_is_moving_average sample_runtime
           [Fin 2; Fin 4; Fin 4; Fin 6] 2 (Fin 2) 3).
  - lia.
  - vm_compute. intuition discriminate.
Defined.

(* ================================================================= *)
(** ** Arithmetic on finite numbers *)

Lemma ltb_Fin (x y : Q) : ltb (Fin x) (Fin y) = true <-> x < y.
Proof.
  simpl. rewrite Qlt_alt. destruct (x ?= y); intuition congruence.
Qed.

Lemma ltb_Fin_false (x y : Q) : ltb (Fin x) (Fin y) = false <-> y <= x.
Proof.
  split.
  - intros E. apply Qnot_lt_le. intros L. apply ltb_Fin in L. congruence.
  - intros L. destruct (ltb (Fin x) (Fin y)) eqn:E; [|reflexivity].
    apply ltb_Fin in E. lra.
Qed.

Lemma gtb_Fin_zero (q : Q) : gtb (Fin q) zero = true <-> 0 < q.
Proof. unfold gtb, zero. apply ltb_Fin. Qed.

Lemma valid_price_Fin (q : Q) : valid_price (Fin q) = true <-> 0 < q.
Proof.
  unfold valid_price. simpl negb. simpl isFinite. rewrite !andb_true_l.
  apply gtb_Fin_zero.
Qed.

Lemma valid_price_inv (a : num) :
  valid_price a = true -> exists q, a = Fin q /\ 0 < q.
Proof.
  destruct a as [| | |q]; try discriminate.
  intros H. exists q. split; [reflexivity|]. now apply valid_price_Fin.
Qed.

Lemma truthy_pos (q : Q) : 0 < q -> truthy (Fin q) = true.
Proof.
  intros H. simpl. destruct (Qeq_bool q 0) eqn:E; [|reflexivity].
  apply Qeq_bool_eq in E. lra.
Qed.

Lemma leb_Fin_zero_pos (q : Q) : 0 < q -> leb (Fin q) zero = false.
Proof.
  intros H. unfold leb, zero.
  assert (E1 : ltb (Fin q) (Fin 0) = false) by (apply ltb_Fin_false; lra).
  rewrite E1. simpl. destruct (Qeq_bool q 0) eqn:E; [|reflexivity].
  apply Qeq_bool_eq in E. lra.
Qed.

(** [Math.max(lo, Math.min(hi, x))] on finite numbers with [lo <= hi]. *)
Lemma clamp_Fin (lo hi x : Q) :
  lo <= hi ->
  exists r, Math_max (Fin lo) (Math_min (Fin hi) (Fin x)) = Fin r
            /\ lo <= r <= hi.
Proof.
  intros H. unfold Math_min.
  destruct (ltb (Fin x) (Fin hi)) eqn:E1; unfold Math_max.
  - destruct (ltb (Fin lo) (Fin x)) eqn:E2.
    + exists x. split; [reflexivity|].
      apply ltb_Fin in E1, E2. lra.
    + exists lo. split; [reflexivity|]. lra.
  - destruct (ltb (Fin lo) (Fin hi)) eqn:E2.
    + exists hi. split; [reflexivity|]. lra.
    + exists lo. split; [reflexivity|]. lra.
Qed.


Lemma forallb_filter {A} (f : A -> bool) (l : list A) :
  forallb f (filter f l) = true.
Proof.
  apply forallb_forall. intros a Ha. now apply filter_In in Ha.
Qed.

(** On a filtered price array [validateData] only tests for emptiness. *)
Lemma validateData_filter (closes : list num) :
  validateData (filter valid_price closes)
  = negb (len (filter valid_price closes) =? 0)%Z.
Proof.
  unfold validateData. rewrite forallb_filter, andb_true_r.
  pose proof (len_nonneg (filter valid_price closes)).
  destruct (Z.gtb_spec (len (filter valid_price closes)) 0);
    destruct (Z.eqb_spec (len (filter valid_price closes)) 0); simpl; lia.
Qed.

(* ================================================================= *)
(** ** The next-day predictor *)

Section Predictor.

Context {RT : Runtime}.

(** The weighted sum only ever adds finite terms to a finite total. *)
Lemma weighted_sum_from_finite (entries : list (Key.t * num)) (a : Q) :
  exists p,
    fold_left (fun prediction entry =>
                 let '(key, value) := entry in
                 if isFinite value then (prediction + value * weights key)%num
                 else prediction)
              entries (Fin a) = Fin p.
Proof.
  revert a. induction entries as [|[key value] entries IH]; intros a; simpl.
  - now exists a.
  - destruct value as [| | |v]; simpl; try apply IH.
    destruct key; simpl; apply IH.
Qed.

Lemma weighted_sum_finite (entries : list (Key.t * num)) :
  exists p, weighted_sum entries = Fin p.
Proof. apply weighted_sum_from_finite. Qed.

(** With fewer than 50 bars the predictor returns at once, without
    drawing a random number. *)
Lemma predictNextDay_short (historicalData : list HistoricalData.t) (st : nat) :
  (len historicalData < 50)%Z ->
  predictNextDay historicalData st
  = Ok (let lastPrice := last_close historicalData in
        if ToBoolean lastPrice && negb (isNaN (ToNumber lastPrice))
        then ToNumber lastPrice else Fin 100, st).
Proof.
  intros H. unfold predictNextDay.
  destruct (Z.ltb_spec (len historicalData) 50); [reflexivity|lia].
Qed.

End Predictor.

Lemma add_Fin (x y : Q) : (Fin x + Fin y)%num = Fin (Qred (x + y)).
Proof. reflexivity. Qed.

Lemma sub_Fin (x y : Q) : (Fin x - Fin y)%num = Fin (Qred (x - y)).
Proof. reflexivity. Qed.

Lemma mul_Fin (x y : Q) : (Fin x * Fin y)%num = Fin (Qred (x * y)).
Proof. reflexivity. Qed.



Lemma truthy_spec (c : num) :
  truthy c = true <-> c <> NaN /\ eqb c zero = false.
Proof.
  destruct c as [| | |q]; simpl.
  - intuition congruence.
  - intuition congruence.
  - intuition congruence.
  - rewrite negb_true_iff. intuition congruence.
Qed.

Section PredictorClaims.

Context {RT : Runtime}.

(** C4, as amended.  With fewer than 50 bars [predictNextDay] returns
    exactly the last close whenever the series is not empty and that
    close is neither NaN nor zero, and returns 100 when the series is
    empty or the last close is NaN or zero; in every case no random
    number is drawn. *)
Theorem predictNextDay_short_history
    (historicalData : list HistoricalData.t) (st : nat) :
  (len historicalData < 50)%Z ->
  (forall c, last_close historicalData = Some c ->
             c <> NaN -> eqb c zero = false ->
             predictNextDay historicalData st = Ok (c, st))
  /\ (forall c, last_close historicalData = Some c ->
                c = NaN \/ eqb c zero = true ->
                predictNextDay historicalData st = Ok (Fin 100, st))
  /\ (last_close historicalData = None ->
      predictNextDay historicalData st = Ok (Fin 100, st)).
Proof.
  intros Hshort. rewrite predictNextDay_short by assumption.
  repeat split.
  - intros c Hc Hnan Hz. rewrite Hc. cbn [ToBoolean ToNumber].
    assert (Ht : truthy c = true) by (apply truthy_spec; now split).
    rewrite Ht. destruct c; [congruence|reflexivity..].
  - intros c Hc Hbad. rewrite Hc. cbn [ToBoolean ToNumber].
    destruct (truthy c) eqn:Ht; [|reflexivity].
    apply truthy_spec in Ht. destruct Ht as [Hn Hz].
    destruct Hbad; congruence.
  - intros Hc. now rewrite Hc.
Qed.




End PredictorClaims.

(* ================================================================= *)
(** ** The predictor on concrete series *)

Lemma sample_tanh_range (q : Q) :
  exists t, sample_tanh (Fin q) = Fin t /\ -1 <= t <= 1.
Proof.
  exists (Qred (q / (1 + Qabs q))). split; [reflexivity|].
  rewrite Qred_correct.
  pose proof (Qabs_nonneg q) as Hn.
  pose proof (Qle_Qabs q) as Hle.
  pose proof (Qle_Qabs (- q)) as Hle'. rewrite Qabs_opp in Hle'.
  assert (Hd : 0 < 1 + Qabs q) by lra.
  split.
  - apply Qle_shift_div_l; [exact Hd|]. lra.
  - apply Qle_shift_div_r; [exact Hd|]. lra.
Qed.


Lemma predictNextDay_short_history_witness :
  predictNextDay [bar (Fin 41) (Fin 1000); bar (Fin 42) (Fin 1000)] 7%nat
  = Ok (Fin 42, 7%nat).
Proof.
  apply (proj1 (@predictNextDay_short_history sample_runtime
                  [bar (Fin 41) (Fin 1000); bar (Fin 42) (Fin 1000)] 7%nat
                  ltac:(vm_compute; reflexivity)) (Fin 42)).
  - reflexivity.
  - discriminate.
  - reflexivity.
Defined.

(** C4 as stated fails: a last close of zero is available and finite,
    and with fewer than 50 bars the predictor returns 100 for it. *)
Lemma predictNextDay_short_zero_close_not_returned :
  ~ (forall (RT : Runtime) (historicalData : list HistoricalData.t)
            (st : nat) (c : num),
       (len historicalData < 50)%Z ->
       last_close historicalData = Some c ->
       isFinite c = true ->
       predictNextDay historicalData st = Ok (c, st)).
Proof.
  intros H.
  specialize (H sample_runtime [bar (Fin 0) (Fin 1000)] 0%nat (Fin 0)
                ltac:(vm_compute; reflexivity) eq_refl eq_refl).
  vm_compute in H. discriminate H.
Qed.

(* ================================================================= *)
(** ** No function of the engine throws *)

Lemma In_range (lo hi i : Z) : In i (range lo hi) -> (lo <= i < hi)%Z.
Proof.
  unfold range. rewrite in_map_iff. intros [k [<- Hk]].
  apply in_seq in Hk. lia.
Qed.

(** Closes a goal [exists v st', c st = Ok (v, st')] once [c st] has
    been brought to a returned value. *)
Ltac returned := now eexists; eexists.

Section Totality.

Context {RT : Runtime}.

Lemma predictNextDay_returns (historicalData : list HistoricalData.t) (st : nat) :
  exists v st', predictNextDay historicalData st = Ok (v, st').
Proof.
  unfold predictNextDay.
  destruct (len historicalData <? 50)%Z; [returned|].
  destruct (negb (validateData _)); [returned|].
  destruct (negb _ || _ || _); [returned|].
  unfold bind, Math_random, ret. returned.
Qed.

(** The loop reads [historicalData[i].date] only at indices inside the
    array. *)
Lemma backtest_returns (historicalData : list HistoricalData.t)
    (actualPrices : list num) (todo : list Z) :
  Forall (fun i => (0 <= i < len historicalData)%Z) todo ->
  forall predictions st,
  exists v st',
    backtest historicalData actualPrices todo predictions st = Ok (v, st').
Proof.
  induction 1 as [|i todo Hi _ IH]; intros predictions st; simpl.
  - returned.
  - unfold bind at 1.
    destruct (predictNextDay_returns (slice historicalData 0 i) st)
      as [predicted [st1 E]].
    rewrite E.
    destruct (negb _ && negb _ && _ && _); [|apply IH].
    destruct (get_lt historicalData Hi) as [b Hb]. rewrite Hb.
    unfold field, bind, ret. apply IH.
Qed.

Lemma generatePredictions_returns (historicalData : list HistoricalData.t)
    (days : Z) (st : nat) :
  exists v st', generatePredictions historicalData days st = Ok (v, st').
Proof.
  unfold generatePredictions.
  destruct (len _ <? 50)%Z; [returned|].
  apply backtest_returns. apply Forall_forall. intros i Hi.
  apply In_range in Hi. lia.
Qed.

Lemma recommend_returns (stock : string * list HistoricalData.t) (st : nat) :
  exists v st', recommend stock st = Ok (v, st').
Proof.
  destruct stock as [symbol data]. unfold recommend.
  destruct (len data <? 50)%Z; [returned|].
  destruct (negb (validateData _)); [returned|].
  unfold bind. destruct (predictNextDay_returns data st) as [p [st1 E]].
  rewrite E. destruct (score_signals _ p) as [score reasons].
  destruct (classify score) as [r c]. returned.
Qed.

Lemma mapM_returns {A B} (f : A -> M B) (l : list A) :
  (forall a st, exists v st', f a st = Ok (v, st')) ->
  forall st, exists v st', mapM f l st = Ok (v, st').
Proof.
  intros Hf. induction l as [|a l IH]; intros st; simpl.
  - returned.
  - unfold bind at 1. destruct (Hf a st) as [b [st1 E]]. rewrite E.
    unfold bind at 1. destruct (IH st1) as [bs [st2 E2]]. rewrite E2.
    returned.
Qed.

Lemma generateInvestmentRecommendations_returns
    (stocksData : list (string * list HistoricalData.t)) (st : nat) :
  exists v st', generateInvestmentRecommendations stocksData st = Ok (v, st').
Proof.
  unfold generateInvestmentRecommendations, bind.
  destruct (mapM_returns recommend stocksData recommend_returns st)
    as [recs [st1 E]].
  rewrite E. returned.
Qed.

End Totality.


(* ================================================================= *)
(** ** The recommendation engine: categories and confidences *)

Lemma Math_min_Fin (a b : Q) :
  Math_min (Fin a) (Fin b) = Fin (if ltb (Fin b) (Fin a) then b else a).
Proof. unfold Math_min. now destruct (ltb (Fin b) (Fin a)). Qed.

Lemma Math_min_Fin_cases (a b : Q) :
  exists c, Math_min (Fin a) (Fin b) = Fin c
            /\ ((c = b /\ b < a) \/ (c = a /\ a <= b)).
Proof.
  rewrite Math_min_Fin. destruct (ltb (Fin b) (Fin a)) eqn:E.
  - exists b. split; [reflexivity|]. left. split; [reflexivity|].
    now apply ltb_Fin.
  - exists a. split; [reflexivity|]. right. split; [reflexivity|].
    now apply ltb_Fin_false.
Qed.

Lemma of_Z_mul_add (base : Q) (z : Z) (k : Q) :
  (Fin base + of_Z z * Fin k)%num = Fin (Qred (base + Qred (inject_Z z * k))).
Proof. reflexivity. Qed.

(** The category of a score and the range its confidence lies in. *)
Lemma classify_range (score : Z) :
  exists c,
    snd (classify score) = Fin c
    /\ match fst (classify score) with
       | BUY => (5 <= score)%Z /\ 0.90 <= c <= 0.92
       | SELL => (score <= -4)%Z /\ 0.82 <= c <= 0.88
       | HOLD => (-4 < score < 5)%Z /\ 0.70 <= c <= 0.78
       end.
Proof.
  unfold classify.
  destruct (Z.geb_spec score 5) as [H5|H5].
  - cbn [fst snd]. rewrite of_Z_mul_add.
    destruct (Math_min_Fin_cases 0.92 (Qred (0.75 + Qred (inject_Z score * 0.03))))
      as [c [-> Hc]].
    exists c. split; [reflexivity|]. split; [lia|].
    assert (Hs : 5 <= inject_Z score)
      by (change 5 with (inject_Z 5); rewrite <- Zle_Qle; lia).
    destruct Hc as [[-> Hlt]|[-> Hle]]; rewrite ?Qred_correct in *;
      rewrite ?Qred_correct in *; lra.
  - destruct (Z.leb_spec score (-4)) as [H4|H4].
    + cbn [fst snd]. rewrite of_Z_mul_add.
      destruct (Math_min_Fin_cases 0.88
                  (Qred (0.70 + Qred (inject_Z (Z.abs score) * 0.03))))
        as [c [-> Hc]].
      exists c. split; [reflexivity|]. split; [lia|].
      assert (Hs : 4 <= inject_Z (Z.abs score))
        by (change 4 with (inject_Z 4); rewrite <- Zle_Qle; lia).
      destruct Hc as [[-> Hlt]|[-> Hle]]; rewrite ?Qred_correct in *;
        rewrite ?Qred_correct in *; lra.
    + cbn [fst snd]. rewrite of_Z_mul_add.
      eexists. split; [reflexivity|]. split; [lia|].
      assert (Hs : 0 <= inject_Z (Z.abs score))
        by (change 0 with (inject_Z 0); rewrite <- Zle_Qle; lia).
      assert (Hs' : inject_Z (Z.abs score) <= 4)
        by (change 4 with (inject_Z 4); rewrite <- Zle_Qle; lia).
      rewrite !Qred_correct. lra.
Qed.

Lemma mapM_Forall {A B} (f : A -> M B) (Pre : A -> Prop) (Post : B -> Prop)
    (l : list A) :
  (forall a st, Pre a -> exists b st', f a st = Ok (b, st') /\ Post b) ->
  Forall Pre l ->
  forall st, exists bs st', mapM f l st = Ok (bs, st') /\ Forall Post bs.
Proof.
  intros Hf. induction 1 as [|a l Ha _ IH]; intros st; simpl.
  - exists [], st. now split.
  - unfold bind at 1. destruct (Hf a st Ha) as [b [st1 [E Hb]]]. rewrite E.
    unfold bind at 1. destruct (IH st1) as [bs [st2 [E2 Hbs]]]. rewrite E2.
    exists (b :: bs), st2. split; [reflexivity|now constructor].
Qed.

Section Recommendations.

Context {RT : Runtime}.

Lemma recommend_scored (stock : string * list HistoricalData.t) (st : nat) :
  scored stock ->
  exists r st', recommend stock st = Ok (r, st') /\ in_confidence_range r.
Proof.
  destruct stock as [symbol data]. intros [Hlen Hvalid]. cbn [snd] in *.
  unfold recommend.
  destruct (Z.ltb_spec (len data) 50); [lia|].
  rewrite Hvalid. cbn [negb].
  unfold bind. destruct (predictNextDay_returns data st) as [p [st1 E]].
  rewrite E. destruct (score_signals _ p) as [score reasons].
  destruct (classify_range score) as [c [Hc Hr]].
  destruct (classify score) as [cat conf]. cbn [fst snd] in *. subst conf.
  eexists; eexists; split; [reflexivity|].
  unfold in_confidence_range.
  cbn [InvestmentRecommendation.confidence InvestmentRecommendation.recommendation].
  rewrite Math_min_Fin.
  assert (Hcap : ltb (Fin 0.95) (Fin c) = false).
  { apply ltb_Fin_false. destruct cat; lra. }
  rewrite Hcap. exists c. split; [reflexivity|].
  destruct cat; tauto.
Qed.

Lemma in_confidence_range_finite (r : InvestmentRecommendation.t) :
  in_confidence_range r -> finite_confidence r.
Proof. intros [c [Hc _]]. now exists c. Qed.

Lemma recommend_finite_confidence
    (stock : string * list HistoricalData.t) (st : nat) :
  exists r st', recommend stock st = Ok (r, st') /\ finite_confidence r.
Proof.
  destruct stock as [symbol data].
  destruct (Z.ltb_spec (len data) 50) as [Hs|Hs].
  - unfold recommend. destruct (Z.ltb_spec (len data) 50); [|lia].
    eexists; eexists; split; [reflexivity|]. now exists 0.5.
  - destruct (validateData (filter valid_price (map HistoricalData.close data)))
      eqn:Hv.
    + destruct (@recommend_scored (symbol, data) st) as [r [st' [E Hr]]].
      { split; [exact Hs|exact Hv]. }
      exists r, st'. split; [exact E|]. now apply in_confidence_range_finite.
    + unfold recommend. destruct (Z.ltb_spec (len data) 50); [lia|].
      rewrite Hv. eexists; eexists; split; [reflexivity|]. now exists 0.5.
Qed.

End Recommendations.

(* ================================================================= *)
(** ** The ranking *)

Lemma In_insert {A} (cmp : A -> A -> num) (x y : A) (l : list A) :
  In y (insert cmp x l) <-> y = x \/ In y l.
Proof.
  induction l as [|z l IH]; cbn [insert In].
  - split; [intros [H|[]]; now left|intros [H|[]]; now left].
  - destruct (cmp x z >? zero)%num; cbn [In].
    + rewrite IH. tauto.
    + split; [intros [H|H]; [now left|now right]
             |intros [H|H]; [now left|now right]].
Qed.

Lemma In_sort {A} (cmp : A -> A -> num) (y : A) (l : list A) :
  In y (sort cmp l) <-> In y l.
Proof.
  induction l as [|x l IH]; simpl; [tauto|].
  rewrite In_insert, IH. split; (intros [H|H]; [now left|now right]).
Qed.

Lemma Forall_sort {A} (cmp : A -> A -> num) (P : A -> Prop) (l : list A) :
  Forall P l -> Forall P (sort cmp l).
Proof.
  rewrite !Forall_forall. intros H y Hy. apply H. now apply In_sort in Hy.
Qed.

Lemma gtb_of_Z_zero (z : Z) : (of_Z z >? zero)%num = true <-> (0 < z)%Z.
Proof.
  unfold gtb, of_Z, zero. rewrite ltb_Fin.
  change 0 with (inject_Z 0). now rewrite <- Zlt_Qlt.
Qed.

Lemma comparator_spec (a b : InvestmentRecommendation.t) :
  finite_confidence a -> finite_confidence b ->
  if (by_priority_then_confidence a b >? zero)%num
  then ranks_before b a
  else ranks_before a b.
Proof.
  intros [ca Ha] [cb Hb]. unfold by_priority_then_confidence, ranks_before.
  unfold confidence_of. rewrite Ha, Hb.
  destruct (Z.eqb_spec
              (priorityOrder (InvestmentRecommendation.recommendation a))
              (priorityOrder (InvestmentRecommendation.recommendation b)))
    as [Heq|Hne]; cbn [negb].
  - rewrite sub_Fin.
    destruct (Fin (Qred (cb - ca)) >? zero)%num eqn:E.
    + right. split; [now symmetry|].
      unfold gtb, zero in E. apply ltb_Fin in E. rewrite Qred_correct in E. lra.
    + right. split; [assumption|].
      unfold gtb, zero in E. apply ltb_Fin_false in E.
      rewrite Qred_correct in E. lra.
  - destruct (of_Z _ >? zero)%num eqn:E.
    + apply gtb_of_Z_zero in E. left. lia.
    + left.
      destruct (Z.lt_ge_cases
                  (priorityOrder (InvestmentRecommendation.recommendation b))
                  (priorityOrder (InvestmentRecommendation.recommendation a)))
        as [Hlt|Hge]; [exact Hlt|].
      assert (Hpos : (of_Z (priorityOrder (InvestmentRecommendation.recommendation b)
                            - priorityOrder (InvestmentRecommendation.recommendation a))
                      >? zero)%num = true) by (apply gtb_of_Z_zero; lia).
      congruence.
Qed.

Lemma ranks_before_trans (a b c : InvestmentRecommendation.t) :
  ranks_before a b -> ranks_before b c -> ranks_before a c.
Proof.
  unfold ranks_before. intros [H1|[H1 H1']] [H2|[H2 H2']].
  - left. lia.
  - left. lia.
  - left. lia.
  - right. split; [lia|]. lra.
Qed.

Lemma insert_sorted (x : InvestmentRecommendation.t)
    (l : list InvestmentRecommendation.t) :
  finite_confidence x -> Forall finite_confidence l ->
  StronglySorted ranks_before l ->
  StronglySorted ranks_before (insert by_priority_then_confidence x l).
Proof.
  intros Hx Hl Hs. induction Hs as [|y l Hs IH Hy]; cbn [insert].
  - constructor; constructor.
  - inversion Hl as [|? ? Hfy Hfl]; subst.
    pose proof (comparator_spec Hx Hfy) as Hc.
    destruct (by_priority_then_confidence x y >? zero)%num.
    + constructor; [now apply IH|].
      apply Forall_forall. intros z Hz. apply In_insert in Hz.
      destruct Hz as [->|Hz]; [exact Hc|].
      now apply (proj1 (Forall_forall _ _) Hy).
    + constructor; [now constructor|].
      constructor; [exact Hc|].
      eapply Forall_impl; [|exact Hy].
      intros z Hz. now apply ranks_before_trans with y.
Qed.

Lemma sort_sorted (l : list InvestmentRecommendation.t) :
  Forall finite_confidence l ->
  StronglySorted ranks_before (sort by_priority_then_confidence l).
Proof.
  induction 1 as [|x l Hx Hl IH]; simpl; [constructor|].
  apply insert_sorted; [exact Hx| |exact IH].
  now apply Forall_sort.
Qed.

Lemma StronglySorted_get {A} (R : A -> A -> Prop) (l : list A) :
  StronglySorted R l ->
  forall i j a b, (0 <= i < j)%Z ->
                  get l i = Some a -> get l j = Some b -> R a b.
Proof.
  induction 1 as [|x l Hs IH Hx]; intros i j a b Hij Ha Hb.
  - unfold get in Ha. destruct (i <? 0)%Z; [discriminate|].
    now destruct (Z.to_nat i).
  - unfold get in Ha, Hb.
    destruct (Z.ltb_spec i 0); [lia|]. destruct (Z.ltb_spec j 0); [lia|].
    destruct (Z.to_nat j) as [|nj] eqn:Ej; [lia|]. simpl in Hb.
    destruct (Z.to_nat i) as [|ni] eqn:Ei; simpl in Ha.
    + inversion Ha; subst a.
      apply (proj1 (Forall_forall _ _) Hx). eapply nth_error_In; exact Hb.
    + apply (IH (Z.of_nat ni) (Z.of_nat nj)); [lia| |].
      * unfold get. destruct (Z.ltb_spec (Z.of_nat ni) 0); [lia|].
        now rewrite Nat2Z.id.
      * unfold get. destruct (Z.ltb_spec (Z.of_nat nj) 0); [lia|].
        now rewrite Nat2Z.id.
Qed.

Section Ranking.

Context {RT : Runtime}.

(** C2.  Whatever the list of (symbol, series) pairs,
    [generateInvestmentRecommendations] returns a list in which every
    entry ranks before every later one: its priority (BUY = 3, HOLD = 2,
    SELL = 1) is at least as high, so a BUY never comes after a SELL
    whatever the confidences, and of two entries of the same category
    the earlier one has a confidence at least as high. *)
Theorem recommendations_sorted_by_priority_then_confidence
    (stocksData : list (string * list HistoricalData.t)) (st : nat) :
  exists recs st',
    generateInvestmentRecommendations stocksData st = Ok (recs, st')
    /\ forall i j a b,
         (0 <= i < j)%Z -> get recs i = Some a -> get recs j = Some b ->
         (priorityOrder (InvestmentRecommendation.recommendation b)
          <= priorityOrder (InvestmentRecommendation.recommendation a))%Z
         /\ ~ (InvestmentRecommendation.recommendation a = SELL
               /\ InvestmentRecommendation.recommendation b = BUY)
         /\ (InvestmentRecommendation.recommendation a
             = InvestmentRecommendation.recommendation b ->
             exists ca cb,
               InvestmentRecommendation.confidence a = Fin ca
               /\ InvestmentRecommendation.confidence b = Fin cb
               /\ cb <= ca).
Proof.
  unfold generateInvestmentRecommendations, bind.
  destruct (@mapM_Forall _ _ recommend (fun _ => True) finite_confidence
              stocksData) with (st := st) as [recs [st1 [E Hfin]]].
  { intros a s _. apply recommend_finite_confidence. }
  { apply Forall_forall. intros; exact I. }
  rewrite E. eexists; eexists; split; [reflexivity|].
  intros i j a b Hij Ha Hb.
  pose proof (StronglySorted_get (sort_sorted Hfin) Hij Ha Hb) as Hrank.
  assert (Hfa : finite_confidence a).
  { apply (proj1 (Forall_forall _ _) (Forall_sort by_priority_then_confidence Hfin)).
    eapply get_In; exact Ha. }
  assert (Hfb : finite_confidence b).
  { apply (proj1 (Forall_forall _ _) (Forall_sort by_priority_then_confidence Hfin)).
    eapply get_In; exact Hb. }
  destruct Hfa as [ca Hca], Hfb as [cb Hcb].
  unfold ranks_before, confidence_of in Hrank. rewrite Hca, Hcb in Hrank.
  split; [lia|]. split.
  - intros [Hsell Hbuy]. rewrite Hsell, Hbuy in Hrank. simpl in Hrank. lia.
  - intros Hsame. exists ca, cb. split; [exact Hca|]. split; [exact Hcb|].
    rewrite Hsame in Hrank. destruct Hrank as [Hlt|[_ Hle]]; [lia|exact Hle].
Qed.

(** C10.  When every stock handed in is scored (at least 50 bars and
    valid prices), every BUY returned has a confidence in [0.90, 0.92],
    every SELL in [0.82, 0.88] and every HOLD in [0.70, 0.78]; so every
    BUY and every SELL has a strictly higher confidence than every
    HOLD. *)
Theorem scored_confidence_ranges
    (stocksData : list (string * list HistoricalData.t)) (st : nat) :
  Forall scored stocksData ->
  exists recs st',
    generateInvestmentRecommendations stocksData st = Ok (recs, st')
    /\ List.length recs = List.length stocksData
    /\ Forall in_confidence_range recs
    /\ forall a b,
         In a recs -> In b recs ->
         InvestmentRecommendation.recommendation a <> HOLD ->
         InvestmentRecommendation.recommendation b = HOLD ->
         confidence_of b < confidence_of a.
Proof.
  intros Hscored.
  unfold generateInvestmentRecommendations, bind.
  destruct (@mapM_Forall _ _ recommend scored in_confidence_range stocksData)
    with (st := st) as [recs [st1 [E Hrange]]].
  { intros a s Ha. now apply recommend_scored. }
  { exact Hscored. }
  rewrite E. eexists; eexists; split; [reflexivity|].
  assert (Hsorted : Forall in_confidence_range
                           (sort by_priority_then_confidence recs))
    by now apply Forall_sort.
  split; [|split; [exact Hsorted|]].
  - clear - E. revert st st1 recs E.
    induction stocksData as [|s l IH]; intros st st1 recs E; simpl in E.
    + inversion E. reflexivity.
    + unfold bind at 1 in E. destruct (recommend s st) as [[r s1]|]; [|discriminate].
      unfold bind at 1 in E.
      destruct (mapM recommend l s1) as [[rs s2]|] eqn:El; [|discriminate].
      inversion E; subst. cbn [sort fold_right].
      specialize (IH _ _ _ El). fold (sort by_priority_then_confidence rs).
      clear - IH. simpl List.length. rewrite <- IH.
      generalize (sort by_priority_then_confidence rs). intros l0.
      induction l0 as [|y l0 IHl]; cbn [insert]; [reflexivity|].
      destruct (by_priority_then_confidence r y >? zero)%num; simpl; [|reflexivity].
      now rewrite IHl.
  - intros a b Ha Hb Hna Hhold.
    destruct (proj1 (Forall_forall _ _) Hsorted a Ha) as [ca [Hca Hra]].
    destruct (proj1 (Forall_forall _ _) Hsorted b Hb) as [cb [Hcb Hrb]].
    unfold confidence_of. rewrite Hca, Hcb. rewrite Hhold in Hrb.
    destruct (InvestmentRecommendation.recommendation a); [lra|lra|congruence].
Qed.

End Ranking.

Lemma scored_confidence_ranges_witness :
  exists recs st',
    generateInvestmentRecommendations
      [("TCS.NS"%string, ramp 100 1 50%nat);
       ("INFY.NS"%string, ramp 200 (-1) 50%nat)] 0%nat = Ok (recs, st')
    /\ List.length recs = 2%nat
    /\ Forall in_confidence_range recs
    /\ forall a b,
         In a recs -> In b recs ->
         InvestmentRecommendation.recommendation a <> HOLD ->
         InvestmentRecommendation.recommendation b = HOLD ->
         confidence_of b < confidence_of a.
Proof.
  apply (@scored_confidence_ranges sample_runtime
           [("TCS.NS"%string, ramp 100 1 50%nat);
            ("INFY.NS"%string, ramp 200 (-1) 50%nat)] 0%nat).
  repeat constructor; vm_compute; discriminate.
Defined.

(* ================================================================= *)
(** ** The backtest generator *)

Section Backtest.

Context {RT : Runtime}.

(** Fewer than 50 valid closes: no prediction, no draw. *)
Lemma generatePredictions_insufficient
    (historicalData : list HistoricalData.t) (days : Z) (st : nat) :
  (len (filter valid_price (map HistoricalData.close historicalData)) < 50)%Z ->
  generatePredictions historicalData days st = Ok ([], st).
Proof.
  intros H. unfold generatePredictions.
  destruct (Z.ltb_spec
              (len (filter valid_price (map HistoricalData.close historicalData)))
              50); [reflexivity|lia].
Qed.

(** Every entry the loop appends passed its guard. *)
Lemma backtest_passes_guard (historicalData : list HistoricalData.t)
    (actualPrices : list num) (todo : list Z) :
  Forall (fun a => valid_price a = true) actualPrices ->
  forall predictions st out st',
    Forall passes_guard predictions ->
    backtest historicalData actualPrices todo predictions st = Ok (out, st') ->
    Forall passes_guard out.
Proof.
  intros Hvalid. induction todo as [|i todo IH];
    intros predictions st out st' Hacc E; cbn [backtest] in E.
  - inversion E; subst. exact Hacc.
  - unfold bind at 1 in E.
    destruct (predictNextDay (slice historicalData 0 i) st)
      as [[predicted st1]|]; [|discriminate].
    destruct (negb (isNaN (ToNumber (get actualPrices i)))
              && negb (isNaN predicted)
              && (ToNumber (get actualPrices i) >? zero)%num
              && (predicted >? zero)%num) eqn:G; [|now apply (IH _ _ _ _ Hacc E)].
    apply andb_prop in G. destruct G as [G Gp].
    apply andb_prop in G. destruct G as [G Ga].
    apply andb_prop in G. destruct G as [Gn Gpn].
    unfold bind at 1 in E.
    destruct (field (get historicalData i) HistoricalData.date st1)
      as [[date st2]|]; [|discriminate].
    apply (IH _ _ _ _) in E; [exact E|].
    apply Forall_app. split; [exact Hacc|]. constructor; [|constructor].
    unfold passes_guard. cbn [PredictionData.actual PredictionData.predicted].
    split; [|split].
    + destruct (get actualPrices i) as [a|] eqn:Ea; [|discriminate].
      apply get_In in Ea.
      apply (proj1 (Forall_forall _ _) Hvalid) in Ea.
      now apply valid_price_inv.
    + destruct predicted; [discriminate|congruence..].
    + exact Gp.
Qed.

Lemma generatePredictions_passes_guard
    (historicalData : list HistoricalData.t) (days : Z) (st : nat) :
  exists out st',
    generatePredictions historicalData days st = Ok (out, st')
    /\ Forall passes_guard out.
Proof.
  destruct (generatePredictions_returns historicalData days st) as [out [st' E]].
  exists out, st'. split; [exact E|].
  unfold generatePredictions in E.
  destruct (len _ <? 50)%Z.
  - inversion E. constructor.
  - eapply backtest_passes_guard; [| |exact E].
    + apply Forall_forall. intros a Ha. now apply filter_In in Ha.
    + constructor.
Qed.

(** C3.  The guard lets a prediction of +Infinity through.  On fifty
    bars closing at +Infinity followed by 51 bars closing at 100, with a
    window of 60 days, the sequence returned is one entry whose
    predicted value is +Infinity. *)
Theorem generatePredictions_infinite_prediction :
  generatePredictions infinite_then_flat 60 0%nat
  = Ok ([PredictionData.mk "2024-01-01" (Fin 100) PInf (Fin (21 # 25))], 50%nat).
Proof. vm_compute. reflexivity. Qed.

(** The guard of the loop is the negation of [skip_entry]. *)
Lemma gtb_zero_not_leb (x : num) :
  x <> NaN -> (x >? zero)%num = negb (x <=? zero)%num.
Proof.
  destruct x as [| | |q]; intros Hx; try reflexivity; [congruence|].
  unfold gtb, leb, zero. cbn [ltb eqb].
  rewrite <- (Qcompare_antisym q 0).
  destruct (Qcompare_spec q 0) as [E|L|G]; cbn [CompOpp].
  - apply Qeq_bool_iff in E. now rewrite E.
  - reflexivity.
  - destruct (Qeq_bool q 0) eqn:E; [|reflexivity].
    apply Qeq_bool_eq in E. lra.
Qed.

Lemma guard_is_not_skip (actual predicted : num) :
  negb (isNaN actual) && negb (isNaN predicted)
  && (actual >? zero)%num && (predicted >? zero)%num
  = negb (skip_entry actual predicted).
Proof.
  unfold skip_entry.
  destruct actual as [| | |a]; [reflexivity|..];
    (destruct predicted as [| | |p];
     [cbn [isNaN negb andb orb]; now rewrite ?andb_false_r, ?orb_true_r|..]);
    rewrite !gtb_zero_not_leb by discriminate;
    cbn [isNaN negb andb orb]; now rewrite negb_orb.
Qed.

Lemma slice_prefix {A} (l : list A) (i : Z) :
  (0 <= i <= len l)%Z -> slice l 0 i = firstn (Z.to_nat i) l.
Proof.
  intros H. unfold slice.
  destruct (Z.ltb_spec i 0); [lia|]. destruct (Z.ltb_spec 0 0); [lia|].
  rewrite !Z.min_l by lia. cbn [Z.to_nat skipn]. f_equal. lia.
Qed.

Lemma backtest_is_spec (historicalData : list HistoricalData.t)
    (actualPrices : list num) (todo : list Z) :
  Forall (fun i => (0 <= i < len historicalData)%Z) todo ->
  forall predictions st,
    backtest historicalData actualPrices todo predictions st
    = backtest_spec historicalData actualPrices todo predictions st.
Proof.
  induction 1 as [|i todo Hi _ IH]; intros predictions st;
    cbn [backtest backtest_spec]; [reflexivity|].
  unfold bind at 1 3. rewrite slice_prefix by lia.
  destruct (predictNextDay (firstn (Z.to_nat i) historicalData) st)
    as [[predicted st1]|]; [|reflexivity].
  rewrite guard_is_not_skip.
  destruct (get_lt historicalData Hi) as [b Hb]. rewrite Hb.
  destruct (get actualPrices i) as [actual|]; cbn [ToNumber].
  - destruct (skip_entry actual predicted); cbn [negb]; [apply IH|].
    unfold field, bind, ret. apply IH.
  - cbn [skip_entry isNaN orb negb]. apply IH.
Qed.

(** Apart from the skip test the generator is the one the specification
    words: the empty sequence when fewer than 50 valid (positive,
    finite) closes exist; otherwise, for each index i from
    max(50, length - days) to length - 1, the predictor run on the
    strict prefix series[0..i) and its result paired with
    actualPrices[i].  The skip test is the one of the code, which lets
    an infinite value through. *)
Lemma generatePredictions_refines_spec
    (historicalData : list HistoricalData.t) (days : Z) (st : nat) :
  generatePredictions historicalData days st
  = generatePredictions_spec historicalData days st.
Proof.
  unfold generatePredictions, generatePredictions_spec.
  set (actualPrices := filter valid_price (map HistoricalData.close historicalData)).
  destruct (Z.ltb_spec (len actualPrices) 50) as [Hs|Hs];
    destruct (Nat.ltb_spec (List.length actualPrices) 50) as [Hn|Hn];
    unfold len in Hs; try lia; [reflexivity|].
  apply backtest_is_spec. apply Forall_forall. intros i Hi.
  apply In_range in Hi. lia.
Qed.

End Backtest.

(** C8.  The generator does not skip every entry with a value that is
    not finite: it is not the case that all entries returned have a
    finite actual and a finite predicted value.  On 49 bars closing at
    NaN, one at +Infinity and 51 at 200, with a window of 100 days, the
    predictor falls back to the close +Infinity of bar 49, which its
    own filter has just rejected, and the one entry returned pairs the
    actual price 200 with the prediction +Infinity. *)
Theorem generatePredictions_keeps_non_finite_prediction :
  ~ (forall (RT : Runtime) (historicalData : list HistoricalData.t)
            (days : Z) (st : nat) out st',
       generatePredictions historicalData days st = Ok (out, st') ->
       Forall (fun p => isFinite (PredictionData.actual p) = true
                        /\ isFinite (PredictionData.predicted p) = true) out).
Proof.
  intros H.
  assert (E : generatePredictions gap_then_flat 100 0%nat
              = Ok ([PredictionData.mk "2024-01-01" (Fin 200) PInf (Fin (21 # 25))],
                    50%nat))
    by (vm_compute; reflexivity).
  apply (H sample_runtime) in E.
  inversion E as [|p l [_ Hp] _]. discriminate Hp.
Qed.

(* ================================================================= *)
(** ** Sums, means and slices of finite numbers *)

Lemma div_Fin_pos (x y : Q) :
  0 < y -> (Fin x / Fin y)%num = Fin (Qred (x / y)).
Proof.
  intros Hy. unfold div.
  destruct (Qcompare_spec y 0) as [E|L|G]; [lra|lra|reflexivity].
Qed.

Lemma inject_Z_pos (z : Z) : (1 <= z)%Z -> 1 <= inject_Z z.
Proof. intros H. change 1 with (inject_Z 1). now rewrite <- Zle_Qle. Qed.

Lemma In_firstn {A} (n : nat) (l : list A) (a : A) :
  In a (firstn n l) -> In a l.
Proof.
  revert l. induction n as [|n IH]; intros l H; [contradiction|].
  destruct l as [|x l]; [contradiction|].
  destruct H as [H|H]; [now left|right; now apply IH].
Qed.

Lemma In_skipn {A} (n : nat) (l : list A) (a : A) :
  In a (skipn n l) -> In a l.
Proof.
  revert l. induction n as [|n IH]; intros l H; [exact H|].
  destruct l as [|x l]; [exact H|]. right. now apply IH.
Qed.

Lemma In_slice {A} (l : list A) (s e : Z) (a : A) :
  In a (slice l s e) -> In a l.
Proof.
  unfold slice. intros H. apply In_firstn in H. now apply In_skipn in H.
Qed.

Lemma Forall_slice {A} (P : A -> Prop) (l : list A) (s e : Z) :
  Forall P l -> Forall P (slice l s e).
Proof.
  rewrite !Forall_forall. intros H a Ha. apply H. eapply In_slice; exact Ha.
Qed.

(** A sum of terms within bounds, started from a finite total. *)
Lemma fold_add_within {A} (g : A -> num) (lo hi : Q) (l : list A) :
  Forall (fun x => within lo hi (g x)) l ->
  forall a, exists s,
    fold_left (fun acc x => (acc + g x)%num) l (Fin a) = Fin s
    /\ a + inject_Z (len l) * lo <= s <= a + inject_Z (len l) * hi.
Proof.
  induction 1 as [|x l [q [Hx Hq]] _ IH]; intros a.
  - exists a. split; [reflexivity|]. unfold len. simpl List.length.
    change (inject_Z (Z.of_nat 0)) with 0. lra.
  - cbn [fold_left]. rewrite Hx, add_Fin.
    destruct (IH (Qred (a + q))) as [s [Hs Hb]]. exists s. split; [exact Hs|].
    rewrite Qred_correct in Hb.
    unfold len in *. simpl List.length. rewrite Nat2Z.inj_succ.
    unfold Z.succ. rewrite inject_Z_plus. change (inject_Z 1) with 1.
    lra.
Qed.

Lemma sum_within (lo hi : Q) (l : list num) :
  Forall (within lo hi) l ->
  exists s, sum l = Fin s
            /\ inject_Z (len l) * lo <= s <= inject_Z (len l) * hi.
Proof.
  intros H. destruct (@fold_add_within num (fun x => x) lo hi l H 0)
    as [s [Hs Hb]].
  exists s. split; [exact Hs|lra].
Qed.

(** The mean of [n >= 1] values within bounds is within them. *)
Lemma mean_within (lo hi : Q) (l : list num) (n : Z) :
  (1 <= n)%Z -> len l = n -> Forall (within lo hi) l ->
  within lo hi (sum l / of_Z n)%num.
Proof.
  intros Hn Hl H. destruct (sum_within H) as [s [Hs Hb]].
  rewrite Hl in Hb. pose proof (inject_Z_pos Hn) as Hp.
  unfold of_Z. rewrite Hs, div_Fin_pos by lra.
  exists (Qred (s / inject_Z n)). split; [reflexivity|].
  rewrite Qred_correct. split.
  - apply Qle_shift_div_l; [lra|]. lra.
  - apply Qle_shift_div_r; [lra|]. lra.
Qed.

(** A sum of terms that are finite and not negative. *)
Lemma fold_add_nonneg {A} (g : A -> num) (l : list A) :
  Forall (fun x => exists q, g x = Fin q /\ 0 <= q) l ->
  forall a, 0 <= a -> exists s,
    fold_left (fun acc x => (acc + g x)%num) l (Fin a) = Fin s /\ 0 <= s.
Proof.
  induction 1 as [|x l [q [Hx Hq]] _ IH]; intros a Ha.
  - now exists a.
  - cbn [fold_left]. rewrite Hx, add_Fin. apply IH.
    rewrite Qred_correct. lra.
Qed.

(** A mean of values that are finite and not negative, whatever the
    number of values. *)
Lemma mean_nonneg (l : list num) (n : Z) :
  (1 <= n)%Z -> Forall (fun a => exists q, a = Fin q /\ 0 <= q) l ->
  exists q, (sum l / of_Z n)%num = Fin q /\ 0 <= q.
Proof.
  intros Hn H.
  destruct (@fold_add_nonneg num (fun x => x) l H 0 ltac:(lra)) as [s [Hs Hb]].
  pose proof (inject_Z_pos Hn) as Hp.
  change (sum l) with (fold_left (fun acc x => (acc + x)%num) l (Fin 0)).
  unfold of_Z. rewrite Hs, div_Fin_pos by lra.
  exists (Qred (s / inject_Z n)). split; [reflexivity|].
  rewrite Qred_correct. apply Qle_shift_div_l; [lra|]. lra.
Qed.

Lemma Forall_map_range {B} (P : B -> Prop) (f : Z -> B) (lo hi : Z) :
  (forall i, (lo <= i < hi)%Z -> P (f i)) -> Forall P (map f (range lo hi)).
Proof.
  intros H. apply Forall_map, Forall_forall. intros i Hi.
  apply H. now apply In_range.
Qed.

(* ================================================================= *)
(** ** RSI stays between 0 and 100 *)

Lemma finite_bounded (l : list num) :
  Forall finite l -> exists lo hi, Forall (within lo hi) l.
Proof.
  induction 1 as [|a l [q Hq] _ [lo [hi IH]]].
  - exists 0, 0. constructor.
  - exists (if Qlt_le_dec q lo then q else lo),
           (if Qlt_le_dec hi q then q else hi).
    constructor.
    + exists q. split; [exact Hq|].
      destruct (Qlt_le_dec q lo), (Qlt_le_dec hi q); lra.
    + eapply Forall_impl; [|exact IH].
      intros x [y [Hy Hb]]. exists y. split; [exact Hy|].
      destruct (Qlt_le_dec q lo), (Qlt_le_dec hi q); lra.
Qed.

Lemma within_finite (lo hi : Q) (a : num) : within lo hi a -> finite a.
Proof. intros [q [Hq _]]. now exists q. Qed.

Lemma get_finite (l : list num) (i : Z) :
  Forall finite l -> (0 <= i < len l)%Z ->
  exists q, ToNumber (get l i) = Fin q.
Proof.
  intros H Hi. destruct (get_lt l Hi) as [a Ha]. rewrite Ha. cbn [ToNumber].
  apply (proj1 (Forall_forall _ _) H). eapply get_In; exact Ha.
Qed.

Lemma rsi_gains_nonneg (prices : list num) :
  Forall finite prices ->
  Forall (fun a => exists q, a = Fin q /\ 0 <= q) (rsi_gains prices).
Proof.
  intros Hfin. unfold rsi_gains. apply Forall_map_range. intros i Hi.
  destruct (get_finite Hfin (i := i) ltac:(lia)) as [x Hx].
  destruct (get_finite Hfin (i := (i - 1)%Z) ltac:(lia)) as [y Hy].
  rewrite Hx, Hy, sub_Fin. cbv zeta.
  destruct (Fin (Qred (x - y)) >? zero)%num eqn:E.
  - eexists. split; [reflexivity|]. apply gtb_Fin_zero in E. lra.
  - exists 0. split; [reflexivity|]. lra.
Qed.

Lemma rsi_losses_nonneg (prices : list num) :
  Forall finite prices ->
  Forall (fun a => exists q, a = Fin q /\ 0 <= q) (rsi_losses prices).
Proof.
  intros Hfin. unfold rsi_losses. apply Forall_map_range. intros i Hi.
  destruct (get_finite Hfin (i := i) ltac:(lia)) as [x Hx].
  destruct (get_finite Hfin (i := (i - 1)%Z) ltac:(lia)) as [y Hy].
  rewrite Hx, Hy, sub_Fin. cbv zeta.
  destruct (Fin (Qred (x - y)) <? zero)%num eqn:E.
  - eexists. split; [reflexivity|]. rewrite Qred_correct. apply Qabs_nonneg.
  - exists 0. split; [reflexivity|]. lra.
Qed.

(** [100 - 100 / (1 + avgGain / (avgLoss || 0.01))] for averages that
    are finite and not negative. *)
Lemma rsi_value_within (g l : Q) :
  0 <= g -> 0 <= l ->
  within 0 100
    (Fin 100 - Fin 100 / (one + Fin g / or_else (Some (Fin l)) (Fin 0.01)))%num.
Proof.
  intros Hg Hl.
  assert (Hd : exists d, or_else (Some (Fin l)) (Fin 0.01) = Fin d /\ 0 < d).
  { unfold or_else. cbn [ToBoolean ToNumber truthy].
    destruct (Qeq_bool l 0) eqn:E; cbn [negb].
    - exists 0.01. split; [reflexivity|lra].
    - exists l. split; [reflexivity|].
      apply Qeq_bool_neq in E. destruct (Qlt_le_dec 0 l); [assumption|].
      exfalso. apply E. lra. }
  destruct Hd as [d [-> Hd]].
  rewrite div_Fin_pos by exact Hd. unfold one. rewrite add_Fin.
  assert (Hrs : 0 <= g / d) by (apply Qle_shift_div_l; [exact Hd|lra]).
  assert (Hx : 1 <= Qred (1 + Qred (g / d))) by (rewrite !Qred_correct; lra).
  rewrite div_Fin_pos by lra. rewrite sub_Fin.
  eexists. split; [reflexivity|].
  set (x := Qred (1 + Qred (g / d))) in *. rewrite !Qred_correct.
  assert (H1 : 0 <= 100 / x) by (apply Qle_shift_div_l; lra).
  assert (H2 : 100 / x <= 100) by (apply Qle_shift_div_r; lra).
  lra.
Qed.

(** X3.  When every price is finite and of magnitude at most 10^12 and
    the period is at least 1, every entry of [calculateRSI] is a finite
    number between 0 and 100. *)
Theorem calculateRSI_between_0_and_100 (prices : list num) (period : Z) :
  (1 <= period)%Z -> Forall price_sized prices ->
  Forall (within 0 100) (calculateRSI prices period).
Proof.
  intros Hp Hsized.
  assert (Hfin : Forall finite prices).
  { eapply Forall_impl; [|exact Hsized]. intros a. apply within_finite. }
  pose proof (rsi_gains_nonneg Hfin) as Hg.
  pose proof (rsi_losses_nonneg Hfin) as Hl.
  unfold calculateRSI. apply Forall_map_range. intros i Hi.
  destruct (Z.ltb_spec i (period - 1)).
  - exists 50. split; [reflexivity|lra].
  - destruct (@mean_nonneg (slice (rsi_gains prices) (i - period + 1) (i + 1))
                period Hp (Forall_slice _ _ Hg)) as [g [Eg Hg0]].
    destruct (@mean_nonneg (slice (rsi_losses prices) (i - period + 1) (i + 1))
                period Hp (Forall_slice _ _ Hl)) as [l [El Hl0]].
    cbv zeta. rewrite Eg, El. now apply rsi_value_within.
Qed.

Lemma calculateRSI_between_0_and_100_witness :
  Forall (within 0 100) (calculateRSI [Fin 10; Fin 12; Fin 11; Fin 15; Fin 9] 2).
Proof.
  apply (@calculateRSI_between_0_and_100 [Fin 10; Fin 12; Fin 11; Fin 15; Fin 9] 2).
  - lia.
  - repeat constructor; eexists; (split; [reflexivity|]);
      split; vm_compute; discriminate.
Defined.

(* ================================================================= *)
(** ** Index-wise maps *)

Lemma range_cons (lo hi : Z) :
  (lo < hi)%Z -> range lo hi = lo :: range (lo + 1) hi.
Proof.
  intros H. unfold range.
  replace (Z.to_nat (hi - lo)) with (S (Z.to_nat (hi - (lo + 1)))) by lia.
  cbn [seq map]. f_equal; [lia|].
  rewrite <- seq_shift, map_map. apply map_ext. intros k. lia.
Qed.

Lemma range_empty (lo hi : Z) : (hi <= lo)%Z -> range lo hi = [].
Proof.
  intros H. unfold range. now replace (Z.to_nat (hi - lo)) with 0%nat by lia.
Qed.

Lemma nth_error_combine_range {A} (l : list A) (lo : Z) (n : nat) :
  nth_error (combine (range lo (lo + len l)) l) n
  = option_map (fun a => ((lo + Z.of_nat n)%Z, a)) (nth_error l n).
Proof.
  revert lo n. induction l as [|x l IH]; intros lo n.
  - rewrite range_empty by (unfold len; simpl List.length; lia).
    destruct n; reflexivity.
  - rewrite range_cons by (unfold len; simpl List.length; lia).
    cbn [combine]. destruct n as [|n]; cbn [nth_error option_map].
    + do 2 f_equal. lia.
    + replace (lo + len (x :: l))%Z with ((lo + 1) + len l)%Z
        by (unfold len; simpl List.length; lia).
      rewrite IH. destruct (nth_error l n); cbn [option_map]; [|reflexivity].
      do 2 f_equal. lia.
Qed.

Lemma get_mapi {A B} (f : A -> Z -> B) (l : list A) (i : Z) :
  get (mapi f l) i = option_map (fun a => f a i) (get l i).
Proof.
  unfold mapi, get. destruct (Z.ltb_spec i 0); [reflexivity|].
  rewrite nth_error_map.
  change (range 0 (len l)) with (range 0 (0 + len l)).
  rewrite nth_error_combine_range.
  destruct (nth_error l (Z.to_nat i)); cbn [option_map fst snd]; [|reflexivity].
  do 2 f_equal. lia.
Qed.

(* ================================================================= *)
(** ** MACD *)

(** X4.  On a non-empty array of prices [calculateMACD] returns three
    arrays of the input's length, aligned with it index by index: at
    every index of the input the MACD line is the entry of EMA(12)
    minus the entry of EMA(26) at that index, and the histogram is the
    entry of the MACD line minus the entry of the signal line. *)
Theorem calculateMACD_lines (prices : list num) :
  prices <> [] ->
  let m := calculateMACD prices in
  List.length (MACD.macd m) = List.length prices
  /\ List.length (MACD.signal m) = List.length prices
  /\ List.length (MACD.histogram m) = List.length prices
  /\ (forall i, (0 <= i < len prices)%Z ->
        get (MACD.macd m) i
        = Some (ToNumber (get (calculateEMA prices 12) i)
                - ToNumber (get (calculateEMA prices 26) i))%num
        /\ get (MACD.histogram m) i
           = Some (ToNumber (get (MACD.macd m) i)
                   - ToNumber (get (MACD.signal m) i))%num).
Proof.
  intros Hne m.
  destruct (length_calculateMACD Hne) as [Lm [Ls Lh]].
  split; [exact Lm|]. split; [exact Ls|]. split; [exact Lh|].
  intros i Hi. split.
  - unfold m, calculateMACD. cbn [MACD.macd]. rewrite get_mapi.
    destruct (@get_lt _ (calculateEMA prices 12) i) as [x Hx].
    { unfold len in *. rewrite length_calculateEMA by exact Hne. exact Hi. }
    now rewrite Hx.
  - unfold m, calculateMACD. cbn [MACD.macd MACD.signal MACD.histogram].
    rewrite get_mapi.
    match goal with
    | |- option_map _ (get ?l i) = _ =>
        destruct (@get_lt _ l i) as [x Hx];
          [unfold len in *; rewrite length_mapi, length_calculateEMA by exact Hne;
           exact Hi|]; now rewrite Hx
    end.
Qed.

Lemma calculateMACD_lines_witness :
  List.length (MACD.macd (calculateMACD [Fin 3; Fin 5; Fin 4])) = 3%nat
  /\ get (MACD.histogram (calculateMACD [Fin 3; Fin 5; Fin 4])) 2
     = Some (ToNumber (get (MACD.macd (calculateMACD [Fin 3; Fin 5; Fin 4])) 2)
             - ToNumber (get (MACD.signal (calculateMACD [Fin 3; Fin 5; Fin 4])) 2))%num.
Proof.
  destruct (@calculateMACD_lines [Fin 3; Fin 5; Fin 4]) as [L [_ [_ H]]].
  - discriminate.
  - split; [exact L|]. apply (H 2%Z). unfold len. simpl. lia.
Defined.

(* ================================================================= *)
(** ** Bollinger bands under a square root that is not negative *)

Lemma div_nonneg (s : Q) (n : Z) :
  0 <= s -> (1 <= n)%Z -> exists q, (Fin s / of_Z n)%num = Fin q /\ 0 <= q.
Proof.
  intros Hs Hn. pose proof (inject_Z_pos Hn) as Hp.
  unfold of_Z. rewrite div_Fin_pos by lra.
  eexists. split; [reflexivity|].
  rewrite Qred_correct. apply Qle_shift_div_l; [lra|]. lra.
Qed.

(** The sum of the squared deviations of finite values from a finite
    mean, divided by a positive count. *)
Lemma variance_nonneg (xs : list num) (mean : Q) (n : Z) :
  Forall finite xs -> (1 <= n)%Z ->
  exists v,
    (fold_left (fun sum x => sum + Math_pow2 (x - Fin mean)) xs zero
     / of_Z n)%num = Fin v
    /\ 0 <= v.
Proof.
  intros Hfin Hn.
  destruct (@fold_add_nonneg num (fun x => Math_pow2 (x - Fin mean)%num) xs)
    with (a := 0) as [s [Hs Hs0]]; [|lra|].
  - eapply Forall_impl; [|exact Hfin]. intros a [q ->].
    rewrite sub_Fin. unfold Math_pow2. rewrite mul_Fin.
    eexists. split; [reflexivity|]. rewrite Qred_correct. nra.
  - unfold zero. rewrite Hs. now apply div_nonneg.
Qed.

Section OrderedBands.

Context {RT : Runtime}.

Hypothesis sqrt_nonneg :
  forall q, 0 <= q -> exists r, Math_sqrt (Fin q) = Fin r /\ 0 <= r.

Lemma calculateBollingerBands_Forall_ordered
    (prices : list num) (period : Z) (k : Q) :
  (1 <= period)%Z -> 0 <= k -> Forall finite prices ->
  Forall ordered_band (calculateBollingerBands prices period (Fin k)).
Proof.
  intros Hp Hk Hfin.
  destruct (finite_bounded Hfin) as [lo [hi Hb]].
  unfold calculateBollingerBands. apply Forall_map_range. intros i Hi.
  destruct (Z.ltb_spec i (period - 1)).
  - destruct (get_finite Hfin (i := i) ltac:(lia)) as [q Hq]. rewrite Hq.
    exists q, q, q. cbn [lower middle upper]. repeat split; lra.
  - rewrite get_calculateMovingAverage by lia.
    destruct (Z.ltb_spec i (period - 1)); [lia|]. cbn [ToNumber].
    rewrite slice_window by lia.
    set (window := firstn (Z.to_nat period)
                          (skipn (Z.to_nat (i + 1 - period)) prices)).
    assert (Hwin : Forall (within lo hi) window).
    { unfold window. rewrite <- slice_window by lia. now apply Forall_slice. }
    assert (Hlen : len window = period).
    { unfold window. apply length_window; lia. }
    destruct (@mean_within lo hi window period Hp Hlen Hwin) as [m [Hm _]].
    rewrite Hm.
    destruct (@variance_nonneg window m period) as [v [Hv Hv0]];
      [eapply Forall_impl; [|exact Hwin]; apply within_finite|exact Hp|].
    rewrite Hv. destruct (sqrt_nonneg Hv0) as [r [Hr Hr0]]. rewrite Hr.
    rewrite mul_Fin, add_Fin, sub_Fin.
    eexists; eexists; eexists. cbn [lower middle upper].
    split; [reflexivity|]. split; [reflexivity|]. split; [reflexivity|].
    rewrite !Qred_correct. split; nra.
Qed.

(** X5.  [Math.sqrt] maps a finite number that is not negative to one.
    When every price is finite and of magnitude at most 10^12, the
    period at least 1 and stdDev between 0 and 10^12,
    [calculateBollingerBands] returns one band per price, each with
    finite values in the order lower <= middle <= upper. *)
Theorem calculateBollingerBands_ordered
    (prices : list num) (period : Z) (k : Q) :
  (1 <= period)%Z -> 0 <= k <= price_limit -> Forall price_sized prices ->
  List.length (calculateBollingerBands prices period (Fin k))
  = List.length prices
  /\ Forall ordered_band (calculateBollingerBands prices period (Fin k)).
Proof.
  intros Hp [Hk _] Hsized. split; [apply length_calculateBollingerBands|].
  apply calculateBollingerBands_Forall_ordered; [exact Hp|exact Hk|].
  eapply Forall_impl; [|exact Hsized]. intros a. apply within_finite.
Qed.

End OrderedBands.

Lemma sample_sqrt_nonneg (q : Q) :
  0 <= q -> exists r, sample_sqrt (Fin q) = Fin r /\ 0 <= r.
Proof.
  intros Hq. unfold sample_sqrt.
  assert (Hr : 0 <= Qred (Z.sqrt (Qnum q * Z.pos (Qden q) * 1000000000000)
                          # Qden q * 1000000)).
  { rewrite Qred_correct. unfold Qle. simpl.
    pose proof (Z.sqrt_nonneg (Qnum q * Z.pos (Qden q) * 1000000000000)). lia. }
  destruct (Qcompare_spec q 0) as [E|L|G]; [| lra |];
    (eexists; split; [reflexivity|exact Hr]).
Qed.

Lemma calculateBollingerBands_ordered_witness :
  List.length (calculateBollingerBands [Fin 2; Fin 4; Fin 4; Fin 6] 2 (Fin 2))
  = 4%nat
  /\ Forall ordered_band
            (calculateBollingerBands [Fin 2; Fin 4; Fin 4; Fin 6] 2 (Fin 2)).
Proof.
  apply (@calculateBollingerBands_ordered sample_runtime sample_sqrt_nonneg
           [Fin 2; Fin 4; Fin 4; Fin 6] 2 2).
  - lia.
  - split; vm_compute; discriminate.
  - repeat constructor; eexists; (split; [reflexivity|]);
      split; vm_compute; discriminate.
Defined.

(* ================================================================= *)
(** ** The predictor on series with invalid closes *)

Lemma get_last_valid (closes : list num) :
  filter valid_price closes <> [] ->
  exists cur,
    get (filter valid_price closes) (len (filter valid_price closes) - 1)
    = Some (Fin cur)
    /\ last (filter valid_price closes) NaN = Fin cur
    /\ 0 < cur.
Proof.
  intros Hne. rewrite (get_last NaN Hne).
  assert (Hin : In (last (filter valid_price closes) NaN)
                   (filter valid_price closes)).
  { eapply get_In. apply (get_last NaN Hne). }
  apply filter_In in Hin. destruct Hin as [_ Hv].
  destruct (valid_price_inv _ Hv) as [cur [Hc Hpos]].
  exists cur. rewrite Hc. now repeat split.
Qed.

Section PredictorOnAnySeries.

Context {RT : Runtime}.

Hypothesis tanh_finite :
  forall q, exists t, Math_tanh (Fin q) = Fin t /\ -1 <= t <= 1.

(** The path past both fallbacks: the clamp around the last valid
    close. *)
Lemma predictNextDay_clamped
    (historicalData : list HistoricalData.t) (st : nat) (cur : Q) :
  (50 <= len historicalData)%Z ->
  get (filter valid_price (map HistoricalData.close historicalData))
      (len (filter valid_price (map HistoricalData.close historicalData)) - 1)
  = Some (Fin cur) ->
  0 < cur ->
  exists r,
    predictNextDay historicalData st = Ok (Fin r, S st)
    /\ cur * 0.92 <= r <= cur * 1.08.
Proof.
  intros Hlen Hget Hpos. unfold predictNextDay.
  destruct (Z.ltb_spec (len historicalData) 50); [lia|].
  rewrite validateData_filter.
  destruct (Z.eqb_spec
              (len (filter valid_price (map HistoricalData.close historicalData)))
              0) as [E|E].
  { rewrite E in Hget. discriminate Hget. }
  cbn [negb]. rewrite Hget. cbn [ToBoolean ToNumber isNaN].
  rewrite (truthy_pos Hpos), (leb_Fin_zero_pos Hpos). cbn [negb orb].
  destruct (weighted_sum_finite
              (features (filter valid_price
                                (map HistoricalData.close historicalData))
                        (filter valid_volume
                                (map HistoricalData.volume historicalData))))
    as [p Hp].
  rewrite Hp. destruct (tanh_finite p) as [t [Ht _]]. rewrite Ht.
  unfold bind, Math_random, ret, one.
  rewrite !mul_Fin, !add_Fin, !sub_Fin, !mul_Fin, !add_Fin, !mul_Fin.
  match goal with
  | |- exists r, Ok (Math_max (Fin ?lo) (Math_min (Fin ?hi) (Fin ?x)), _) = _ /\ _ =>
      assert (Hle : lo <= hi) by (rewrite !Qred_correct; lra);
      destruct (clamp_Fin x Hle) as [r [Hr Hb]];
      exists r; rewrite Hr; split; [reflexivity|];
      rewrite !Qred_correct in Hb; exact Hb
  end.
Qed.


Lemma or_else_truthy (v : option num) :
  truthy (or_else v (Fin 100)) = true.
Proof.
  unfold or_else. destruct (ToBoolean v) eqn:E; [|reflexivity].
  destruct v as [a|]; [exact E|discriminate].
Qed.

(** X8.  With the same [Math.tanh], whatever the series,
    [predictNextDay] returns a number that is neither NaN nor zero, and
    draws at most one random number. *)
Theorem predictNextDay_never_NaN_or_zero
    (historicalData : list HistoricalData.t) (st : nat) :
  exists v st',
    predictNextDay historicalData st = Ok (v, st')
    /\ v <> NaN
    /\ eqb v zero = false
    /\ (st' = st \/ st' = S st).
Proof.
  assert (Hgoal : exists v st',
             predictNextDay historicalData st = Ok (v, st')
             /\ truthy v = true /\ (st' = st \/ st' = S st)).
  { destruct (Z.ltb_spec (len historicalData) 50) as [Hs|Hs].
    - rewrite predictNextDay_short by exact Hs.
      eexists; eexists. split; [reflexivity|]. split; [|now left].
      cbv zeta. destruct (ToBoolean (last_close historicalData)) eqn:E;
        [|reflexivity].
      destruct (last_close historicalData) as [a|]; [|discriminate].
      cbn [ToNumber ToBoolean] in *. destruct (isNaN a); [reflexivity|exact E].
    - destruct (filter valid_price (map HistoricalData.close historicalData))
        as [|a l] eqn:Ef.
      + unfold predictNextDay.
        destruct (Z.ltb_spec (len historicalData) 50); [lia|].
        rewrite Ef. cbn [validateData len List.length Z.of_nat Z.gtb Z.compare
                           andb negb].
        eexists; eexists. split; [reflexivity|].
        split; [apply or_else_truthy|now left].
      + assert (Hne : filter valid_price
                        (map HistoricalData.close historicalData) <> [])
          by (rewrite Ef; discriminate).
        destruct (get_last_valid _ Hne) as [cur [Hget [_ Hpos]]].
        destruct (@predictNextDay_clamped historicalData st cur Hs Hget Hpos)
          as [r [E Hb]].
        exists (Fin r), (S st). split; [exact E|]. split; [|now right].
        apply truthy_pos. lra. }
  destruct Hgoal as [v [st' [E [Ht Hst]]]].
  exists v, st'. apply truthy_spec in Ht. tauto.
Qed.

End PredictorOnAnySeries.


Lemma predictNextDay_never_NaN_or_zero_witness :
  exists v st',
    predictNextDay [bar NaN (Fin 1000)] 0%nat = Ok (v, st')
    /\ v <> NaN
    /\ eqb v zero = false
    /\ (st' = 0%nat \/ st' = 1%nat).
Proof.
  apply (@predictNextDay_never_NaN_or_zero sample_runtime sample_tanh_range
           [bar NaN (Fin 1000)] 0%nat).
Defined.

(* ================================================================= *)
(** ** What the backtest returns *)

Lemma relative_error_nonneg (p : PredictionData.t) :
  passes_guard p ->
  nonneg_or_infinite
    (Math_abs (PredictionData.actual p - PredictionData.predicted p)
     / PredictionData.actual p)%num.
Proof.
  intros [[a [Ha Hpos]] [Hn Hp]]. rewrite Ha.
  destruct (PredictionData.predicted p) as [| | |q]; [congruence| |discriminate|].
  - left. cbn [sub Math_abs].
    unfold div. cbn [sgn]. destruct (Qcompare_spec a 0); [lra|lra|reflexivity].
  - right. rewrite sub_Fin. cbn [Math_abs]. rewrite div_Fin_pos by exact Hpos.
    eexists. split; [reflexivity|]. rewrite !Qred_correct.
    apply Qle_shift_div_l; [exact Hpos|].
    pose proof (Qabs_nonneg (a - q)). lra.
Qed.

Lemma add_nonneg_or_infinite (a b : num) :
  nonneg_or_infinite a -> nonneg_or_infinite b -> nonneg_or_infinite (a + b)%num.
Proof.
  intros [->|[x [-> Hx]]] [->|[y [-> Hy]]]; try (now left).
  right. rewrite add_Fin. eexists. split; [reflexivity|].
  rewrite Qred_correct. lra.
Qed.

Lemma fold_nonneg_or_infinite {A} (g : A -> num) (l : list A) :
  Forall (fun x => nonneg_or_infinite (g x)) l ->
  forall a, nonneg_or_infinite a ->
  nonneg_or_infinite (fold_left (fun acc x => (acc + g x)%num) l a).
Proof.
  induction 1 as [|x l Hx _ IH]; intros a Ha; cbn [fold_left]; [exact Ha|].
  apply IH. now apply add_nonneg_or_infinite.
Qed.

(** [Math.max(0.65, Math.min(0.95, 1 - avgError * 8))] for an average
    error that is not negative. *)
Lemma confidence_clamp (e : num) :
  nonneg_or_infinite e ->
  within 0.65 0.95
    (Math_max (Fin 0.65) (Math_min (Fin 0.95) (one - e * Fin 8)))%num.
Proof.
  intros [->|[q [-> Hq]]].
  - exists 0.65. split; [reflexivity|lra].
  - unfold one. rewrite mul_Fin, sub_Fin.
    destruct (@clamp_Fin 0.65 0.95 (Qred (1 - Qred (q * 8))) ltac:(lra))
      as [r [Hr Hb]].
    exists r. split; [exact Hr|exact Hb].
Qed.

Lemma backtest_confidence_within (predictions : list PredictionData.t) :
  Forall passes_guard predictions ->
  within 0.65 0.95 (backtest_confidence predictions).
Proof.
  intros H. unfold backtest_confidence. apply confidence_clamp.
  destruct (Z.gtb_spec (len (slice_from predictions (-10))) 0) as [Hn|Hn];
    [|right; exists 0.02; split; [reflexivity|lra]].
  assert (Hsum : nonneg_or_infinite
            (fold_left
               (fun sum p =>
                  (sum + Math_abs (PredictionData.actual p
                                   - PredictionData.predicted p)
                         / PredictionData.actual p)%num)
               (slice_from predictions (-10)) zero)).
  { apply (@fold_nonneg_or_infinite _
             (fun p => (Math_abs (PredictionData.actual p
                                  - PredictionData.predicted p)
                        / PredictionData.actual p)%num)).
    - eapply Forall_impl; [intros p; apply relative_error_nonneg|].
      unfold slice_from. now apply Forall_slice.
    - right. exists 0. split; [reflexivity|lra]. }
  assert (Hpos : 0 < inject_Z (len (slice_from predictions (-10)))).
  { pose proof (@inject_Z_pos (len (slice_from predictions (-10))) ltac:(lia)).
    lra. }
  destruct Hsum as [->|[s [-> Hs]]].
  - left. unfold of_Z, div. cbn [sgn].
    destruct (Qcompare_spec (inject_Z (len (slice_from predictions (-10)))) 0);
      [lra|lra|reflexivity].
  - right. unfold of_Z. rewrite div_Fin_pos by exact Hpos.
    eexists. split; [reflexivity|]. rewrite Qred_correct.
    apply Qle_shift_div_l; [exact Hpos|]. lra.
Qed.

Section BacktestEntries.

Context {RT : Runtime}.

Lemma backtest_entries (historicalData : list HistoricalData.t)
    (actualPrices : list num) (todo : list Z) :
  Forall (fun a => valid_price a = true) actualPrices ->
  forall predictions st out st',
    Forall (fun p => passes_guard p
                     /\ within 0.65 0.95 (PredictionData.confidence p)
                     /\ exists b, In b historicalData
                                  /\ PredictionData.date p = HistoricalData.date b)
           predictions ->
    backtest historicalData actualPrices todo predictions st = Ok (out, st') ->
    Forall (fun p => passes_guard p
                     /\ within 0.65 0.95 (PredictionData.confidence p)
                     /\ exists b, In b historicalData
                                  /\ PredictionData.date p = HistoricalData.date b)
           out
    /\ (List.length out <= List.length predictions + List.length todo)%nat.
Proof.
  intros Hvalid. induction todo as [|i todo IH];
    intros predictions st out st' Hacc E; cbn [backtest] in E.
  - inversion E; subst. split; [exact Hacc|simpl; lia].
  - unfold bind at 1 in E.
    destruct (predictNextDay (slice historicalData 0 i) st)
      as [[predicted st1]|]; [|discriminate].
    destruct (negb (isNaN (ToNumber (get actualPrices i)))
              && negb (isNaN predicted)
              && (ToNumber (get actualPrices i) >? zero)%num
              && (predicted >? zero)%num) eqn:G.
    2:{ destruct (IH _ _ _ _ Hacc E) as [H1 H2]. split; [exact H1|simpl; lia]. }
    apply andb_prop in G. destruct G as [G Gp].
    apply andb_prop in G. destruct G as [G Ga].
    apply andb_prop in G. destruct G as [Gn Gpn].
    unfold bind at 1 in E.
    destruct (get historicalData i) as [b|] eqn:Eb; [|discriminate].
    unfold field, ret in E.
    apply IH in E.
    + destruct E as [H1 H2]. split; [exact H1|].
      rewrite length_app in H2. simpl in *. lia.
    + apply Forall_app. split; [exact Hacc|]. constructor; [|constructor].
      cbn [PredictionData.confidence PredictionData.date].
      split; [|split].
      * unfold passes_guard.
        cbn [PredictionData.actual PredictionData.predicted].
        split; [|split].
        -- destruct (get actualPrices i) as [a|] eqn:Ea; [|discriminate].
           apply get_In in Ea.
           apply (proj1 (Forall_forall _ _) Hvalid) in Ea.
           now apply valid_price_inv.
        -- destruct predicted; [discriminate|congruence..].
        -- exact Gp.
      * apply backtest_confidence_within.
        eapply Forall_impl; [|exact Hacc]. intros p Hp. apply Hp.
      * exists b. split; [eapply get_In; exact Eb|reflexivity].
Qed.

(** X9.  Whatever the series and the window, every entry that
    [generatePredictions] returns has a finite positive actual value, a
    predicted value that is greater than zero and not NaN, a confidence
    between 0.65 and 0.95 and the date of a bar of the series; and
    there are at most length - 50 entries. *)
Theorem generatePredictions_entries
    (historicalData : list HistoricalData.t) (days : Z) (st : nat) :
  exists out st',
    generatePredictions historicalData days st = Ok (out, st')
    /\ Forall (fun p => passes_guard p
                        /\ within 0.65 0.95 (PredictionData.confidence p)
                        /\ exists b, In b historicalData
                                     /\ PredictionData.date p
                                        = HistoricalData.date b)
              out
    /\ (Z.of_nat (List.length out) <= Z.max 0 (len historicalData - 50))%Z.
Proof.
  destruct (generatePredictions_returns historicalData days st) as [out [st' E]].
  exists out, st'. split; [exact E|].
  unfold generatePredictions in E.
  destruct (len _ <? 50)%Z.
  - inversion E. split; [constructor|simpl; lia].
  - apply backtest_entries in E.
    + destruct E as [H1 H2]. split; [exact H1|].
      rewrite length_range in H2. simpl in H2. lia.
    + apply Forall_forall. intros a Ha. now apply filter_In in Ha.
    + constructor.
Qed.

End BacktestEntries.

(* ================================================================= *)
(** ** The backtest on a series of valid closes *)



Section BacktestOnValidSeries.

Context {RT : Runtime}.

Hypothesis tanh_finite :
  forall q, exists t, Math_tanh (Fin q) = Fin t /\ -1 <= t <= 1.

Variable historicalData : list HistoricalData.t.

Hypothesis closes_valid :
  Forall (fun b => exists q, HistoricalData.close b = Fin q /\ 0 < q)
         historicalData.





End BacktestOnValidSeries.


(* ================================================================= *)
(** ** One recommendation per stock *)

Lemma insert_permutation {A} (cmp : A -> A -> num) (x : A) (l : list A) :
  Permutation (insert cmp x l) (x :: l).
Proof.
  induction l as [|y l IH]; cbn [insert]; [reflexivity|].
  destruct (cmp x y >? zero)%num; [|reflexivity].
  rewrite IH. apply perm_swap.
Qed.

Lemma sort_permutation {A} (cmp : A -> A -> num) (l : list A) :
  Permutation (sort cmp l) l.
Proof.
  induction l as [|x l IH]; cbn [sort fold_right]; [reflexivity|].
  fold (sort cmp l). rewrite insert_permutation. now constructor.
Qed.

Lemma mapM_Forall2 {A B} (f : A -> M B) (R : A -> B -> Prop) (l : list A) :
  (forall a st, exists b st', f a st = Ok (b, st') /\ R a b) ->
  forall st, exists bs st', mapM f l st = Ok (bs, st') /\ Forall2 R l bs.
Proof.
  intros Hf. induction l as [|a l IH]; intros st; cbn [mapM].
  - exists [], st. split; [reflexivity|constructor].
  - unfold bind at 1. destruct (Hf a st) as [b [st1 [E Hb]]]. rewrite E.
    unfold bind at 1. destruct (IH st1) as [bs [st2 [E2 Hbs]]]. rewrite E2.
    exists (b :: bs), st2. split; [reflexivity|now constructor].
Qed.

(** Stripping the suffix: the first [".NS"] of [base ++ ".NS"] is the
    suffix when [base] has no dot. *)
Lemma replace_NS_suffix (base : string) :
  no_dot base = true -> replace ".NS" "" (base ++ ".NS") = base.
Proof.
  induction base as [|c base IH]; intros H; [reflexivity|].
  cbn [no_dot] in H. apply andb_prop in H. destruct H as [Hc Hb].
  cbn [String.append replace String.prefix].
  destruct (ascii_dec "." c) as [E|Hne].
  - subst c. discriminate Hc.
  - now rewrite IH.
Qed.

Section OnePerStock.

Context {RT : Runtime}.

(** What the callback returns for one stock, scored or not. *)
Lemma recommend_shape (stock : string * list HistoricalData.t) (st : nat) :
  exists r st',
    recommend stock st = Ok (r, st')
    /\ InvestmentRecommendation.symbol r = fst stock
    /\ InvestmentRecommendation.name r = replace ".NS" "" (fst stock)
    /\ ((~ scored stock /\ unscored_hold r /\ st' = st)
        \/ (scored stock /\ in_confidence_range r)).
Proof.
  destruct stock as [symbol data]. cbn [fst].
  destruct (Z.ltb_spec (len data) 50) as [Hs|Hs].
  - unfold recommend. destruct (Z.ltb_spec (len data) 50); [|lia].
    eexists; eexists. split; [reflexivity|].
    split; [reflexivity|]. split; [reflexivity|]. left.
    split; [|split; [split; reflexivity|reflexivity]].
    intros [Hl _]. cbn [snd] in Hl. lia.
  - destruct (validateData (filter valid_price (map HistoricalData.close data)))
      eqn:Hv.
    + assert (Hsc : scored (symbol, data)) by (split; [exact Hs|exact Hv]).
      unfold recommend. destruct (Z.ltb_spec (len data) 50); [lia|].
      rewrite Hv. cbn [negb]. unfold bind.
      destruct (predictNextDay_returns data st) as [p [st1 E]]. rewrite E.
      pose proof (recommend_scored st Hsc) as [r [st' [Er Hr]]].
      unfold recommend in Er. destruct (Z.ltb_spec (len data) 50); [lia|].
      rewrite Hv in Er. cbn [negb] in Er. unfold bind in Er. rewrite E in Er.
      destruct (score_signals _ p) as [score reasons].
      destruct (classify score) as [cat conf].
      exists r, st'. split; [exact Er|].
      inversion Er; subst r st'.
      split; [reflexivity|]. split; [reflexivity|]. right. now split.
    + unfold recommend. destruct (Z.ltb_spec (len data) 50); [lia|].
      rewrite Hv. eexists; eexists. split; [reflexivity|].
      split; [reflexivity|]. split; [reflexivity|]. left.
      split; [|split; [split; reflexivity|reflexivity]].
      intros [_ Hl]. cbn [snd] in Hl. congruence.
Qed.

(** X11.  [generateInvestmentRecommendations] returns exactly one
    recommendation per input pair: the symbols of the list returned are
    a permutation of the input symbols, and every entry's name is its
    symbol with the first ".NS" removed, so "TCS" for "TCS.NS". *)
Theorem one_recommendation_per_stock
    (stocksData : list (string * list HistoricalData.t)) (st : nat) :
  exists recs st',
    generateInvestmentRecommendations stocksData st = Ok (recs, st')
    /\ Permutation (map InvestmentRecommendation.symbol recs)
                   (map fst stocksData)
    /\ Forall (fun r =>
                 InvestmentRecommendation.name r
                 = replace ".NS" "" (InvestmentRecommendation.symbol r)
                 /\ forall base,
                      InvestmentRecommendation.symbol r = (base ++ ".NS")%string ->
                      no_dot base = true ->
                      InvestmentRecommendation.name r = base)
              recs.
Proof.
  unfold generateInvestmentRecommendations, bind.
  destruct (@mapM_Forall2 _ _ recommend
              (fun stock r =>
                 InvestmentRecommendation.symbol r = fst stock
                 /\ InvestmentRecommendation.name r = replace ".NS" "" (fst stock))
              stocksData) with (st := st) as [recs [st1 [E H2]]].
  { intros a s. destruct (recommend_shape a s) as [r [s' [Er [Hs [Hn _]]]]].
    exists r, s'. now repeat split. }
  rewrite E. eexists; eexists. split; [reflexivity|]. split.
  - rewrite (Permutation_map _ (sort_permutation by_priority_then_confidence recs)).
    clear E. induction H2 as [|a r l rs [Hs _] _ IH]; [reflexivity|].
    cbn [map]. rewrite Hs. now constructor.
  - apply Forall_sort.
    clear E. induction H2 as [|a r l rs [Hs Hn] _ IH]; constructor; [|exact IH].
    rewrite Hs. split; [exact Hn|].
    intros base Hb Hd. rewrite Hn, Hb. now apply replace_NS_suffix.
Qed.

(** X12.  Every recommendation returned has a finite confidence between
    0.5 and 0.92: exactly 0.5, with category HOLD, for a stock that is
    not scored (fewer than 50 bars or no valid close), and at least 0.70
    for a stock that is scored. *)
Theorem recommendation_confidence_bounds
    (stocksData : list (string * list HistoricalData.t)) (st : nat) :
  exists recs st',
    generateInvestmentRecommendations stocksData st = Ok (recs, st')
    /\ Forall (fun r =>
                 within 0.5 0.92 (InvestmentRecommendation.confidence r)
                 /\ (unscored_hold r
                     \/ within 0.70 0.92 (InvestmentRecommendation.confidence r)))
              recs.
Proof.
  unfold generateInvestmentRecommendations, bind.
  destruct (@mapM_Forall _ _ recommend (fun _ => True)
              (fun r =>
                 within 0.5 0.92 (InvestmentRecommendation.confidence r)
                 /\ (unscored_hold r
                     \/ within 0.70 0.92 (InvestmentRecommendation.confidence r)))
              stocksData) with (st := st) as [recs [st1 [E H]]].
  { intros a s _. destruct (recommend_shape a s) as [r [s' [Er [_ [_ Hr]]]]].
    exists r, s'. split; [exact Er|].
    destruct Hr as [[_ [[Hh Hc] _]]|[_ [c [Hc Hr]]]].
    - split; [exists 0.5; split; [exact Hc|lra]|left; now split].
    - assert (Hb : 0.70 <= c <= 0.92)
        by (destruct (InvestmentRecommendation.recommendation r); lra).
      split; [|right]; (exists c; split; [exact Hc|lra]). }
  { apply Forall_forall. intros; exact I. }
  rewrite E. eexists; eexists. split; [reflexivity|]. now apply Forall_sort.
Qed.

(** The sort leaves a list alone when no comparison is positive. *)
Lemma sort_unchanged {A} (cmp : A -> A -> num) (l : list A) :
  (forall x y, In x l -> In y l -> (cmp x y >? zero)%num = false) ->
  sort cmp l = l.
Proof.
  induction l as [|x l IH]; intros H; cbn [sort fold_right]; [reflexivity|].
  fold (sort cmp l). rewrite IH by (intros; apply H; now right).
  destruct l as [|y l]; cbn [insert]; [reflexivity|].
  now rewrite H by (cbn [In]; tauto).
Qed.

(** X13.  When no stock handed in is scored (each has fewer than 50 bars
    or no valid close), the list returned keeps the input order, every
    entry is a HOLD of confidence 0.5, and no random number is drawn. *)
Theorem unscored_stocks_keep_their_order
    (stocksData : list (string * list HistoricalData.t)) (st : nat) :
  Forall (fun stock => ~ scored stock) stocksData ->
  exists recs,
    generateInvestmentRecommendations stocksData st = Ok (recs, st)
    /\ map InvestmentRecommendation.symbol recs = map fst stocksData
    /\ Forall unscored_hold recs.
Proof.
  intros Hun.
  assert (Hmap : exists recs,
             mapM recommend stocksData st = Ok (recs, st)
             /\ map InvestmentRecommendation.symbol recs = map fst stocksData
             /\ Forall unscored_hold recs).
  { induction Hun as [|a l Ha _ IH]; cbn [mapM].
    - exists []. now repeat split.
    - unfold bind at 1.
      destruct (recommend_shape a st) as [r [s' [Er [Hs [_ Hr]]]]].
      destruct Hr as [[_ [Hh ->]]|[Hsc _]]; [|contradiction].
      rewrite Er. unfold bind at 1. destruct IH as [rs [E [Hm Hf]]].
      rewrite E. exists (r :: rs). split; [reflexivity|].
      split; [cbn [map]; now rewrite Hs, Hm|now constructor]. }
  destruct Hmap as [recs [E [Hm Hf]]].
  exists recs. unfold generateInvestmentRecommendations, bind. rewrite E.
  unfold ret. rewrite sort_unchanged; [now repeat split|].
  intros x y Hx Hy.
  destruct (proj1 (Forall_forall _ _) Hf x Hx) as [Hxr Hxc].
  destruct (proj1 (Forall_forall _ _) Hf y Hy) as [Hyr Hyc].
  unfold by_priority_then_confidence. rewrite Hxr, Hyr, Hxc, Hyc. reflexivity.
Qed.

End OnePerStock.

Lemma unscored_stocks_keep_their_order_witness :
  exists recs,
    generateInvestmentRecommendations
      [("WIPRO.NS"%string, ramp 100 1 10%nat); ("LT.NS"%string, [])] 0%nat
    = Ok (recs, 0%nat)
    /\ map InvestmentRecommendation.symbol recs
       = map fst [("WIPRO.NS"%string, ramp 100 1 10%nat); ("LT.NS"%string, [])]
    /\ Forall unscored_hold recs.
Proof.
  apply (@unscored_stocks_keep_their_order sample_runtime
           [("WIPRO.NS"%string, ramp 100 1 10%nat); ("LT.NS"%string, [])] 0%nat).
  repeat constructor; intros [Hl _]; vm_compute in Hl; now apply Hl.
Defined.

(* ================================================================= *)
(** ** The score and the target price of a scored stock *)

Lemma score_signals_groups (prices : list num) (predictedPrice : num) :
  score_signals prices predictedPrice
  = let lastIndex := (len prices - 1)%Z in
    let currentPrice := ToNumber (get prices lastIndex) in
    let sma20 := calculateMovingAverage prices 20 in
    let sma50 := calculateMovingAverage prices 50 in
    let macd := calculateMACD prices in
    momentum_group (len prices) currentPrice
      (ToNumber (get prices (lastIndex - 10)))
      (macd_group (ToNumber (get (MACD.macd macd) lastIndex))
                  (ToNumber (get (MACD.signal macd) lastIndex))
         (rsi_group (ToNumber (get (calculateRSI prices 14) lastIndex))
            (trend_group (ToNumber (get sma20 lastIndex))
                         (ToNumber (get sma50 lastIndex)) currentPrice
               (price_group ((predictedPrice - currentPrice) / currentPrice)%num
                            (0%Z, []))))).
Proof. reflexivity. Qed.

Lemma score_invariant_weaken (lo hi lo' hi' : Z) (m n m' n' : nat)
    (acc : Z * list string) :
  score_invariant lo hi m n acc ->
  (lo' <= lo)%Z -> (hi <= hi')%Z -> (m' <= m)%nat -> (n <= n')%nat ->
  score_invariant lo' hi' m' n' acc.
Proof.
  intros [H1 [H2 H3]] ? ? ? ?. split; [lia|]. split; [lia|exact H3].
Qed.

Lemma signal_hit_invariant (lo hi : Z) (m n : nat) (acc : Z * list string)
    (d : Z) (msg : string) :
  score_invariant lo hi m n acc -> not_from_rsi msg ->
  score_invariant (lo + d) (hi + d) (S m) (S n) (signal_hit acc d msg).
Proof.
  intros [H1 [H2 H3]] Hmsg. unfold score_invariant, signal_hit. cbn [fst snd].
  split; [lia|]. split; [rewrite length_app; simpl; lia|].
  apply Forall_app. split; [exact H3|]. now constructor.
Qed.

(** Closes the invariant of one branch of a group. *)
Ltac group_branch H :=
  first
    [ eapply score_invariant_weaken; [exact H|lia..]
    | eapply score_invariant_weaken;
      [apply signal_hit_invariant;
       [exact H|repeat split; discriminate]|lia..] ].

Lemma price_group_invariant (c : num) (lo hi : Z) (m n : nat)
    (acc : Z * list string) :
  score_invariant lo hi m n acc ->
  score_invariant (lo - 4) (hi + 4) m (S n) (price_group c acc).
Proof.
  intros H. unfold price_group.
  repeat match goal with
         | |- context [if ?b then _ else _] => destruct b
         end; group_branch H.
Qed.

Lemma trend_group_invariant (a b c : num) (lo hi : Z) (m n : nat)
    (acc : Z * list string) :
  score_invariant lo hi m n acc ->
  score_invariant (lo - 3) (hi + 3) m (S n) (trend_group a b c acc).
Proof.
  intros H. unfold trend_group.
  repeat match goal with
         | |- context [if ?b then _ else _] => destruct b
         end; group_branch H.
Qed.

Lemma macd_group_invariant (a b : num) (lo hi : Z) (m n : nat)
    (acc : Z * list string) :
  score_invariant lo hi m n acc ->
  score_invariant (lo - 1) (hi + 1) (S m) (S n) (macd_group a b acc).
Proof.
  intros H. unfold macd_group.
  repeat match goal with
         | |- context [if ?b then _ else _] => destruct b
         end; group_branch H.
Qed.

Lemma momentum_group_invariant (k : Z) (a b : num) (lo hi : Z) (m n : nat)
    (acc : Z * list string) :
  score_invariant lo hi m n acc ->
  score_invariant (lo - 2) (hi + 2) m (S n) (momentum_group k a b acc).
Proof.
  intros H. unfold momentum_group. cbv zeta.
  repeat match goal with
         | |- context [if ?b then _ else _] => destruct b
         end; group_branch H.
Qed.

(** X14.  Whatever the prices and the predicted price, the score of the
    five signal groups lies between -10 and 10 and between one and four
    reasons are recorded: the MACD group always fires, and the RSI group
    never does, because it reads [rsi[lastIndex]], which does not
    exist. *)
Theorem score_signals_bounds (prices : list num) (predictedPrice : num) :
  (-10 <= fst (score_signals prices predictedPrice) <= 10)%Z
  /\ (1 <= List.length (snd (score_signals prices predictedPrice)) <= 4)%nat
  /\ ~ In "Oversold condition (RSI < 30)"%string
          (snd (score_signals prices predictedPrice))
  /\ ~ In "Overbought condition (RSI > 70)"%string
          (snd (score_signals prices predictedPrice))
  /\ ~ In "Neutral RSI levels"%string
          (snd (score_signals prices predictedPrice)).
Proof.
  assert (H : score_invariant (-10) 10 1 4 (score_signals prices predictedPrice)).
  { rewrite score_signals_groups. cbv zeta. rewrite calculateRSI_get_last.
    change (rsi_group (ToNumber None)) with (fun acc : Z * list string => acc).
    cbv beta.
    assert (H0 : score_invariant 0 0 0 0 (0%Z, @nil string)).
    { split; [cbn; lia|]. split; [cbn; lia|constructor]. }
    eapply score_invariant_weaken;
      [apply momentum_group_invariant, macd_group_invariant,
         trend_group_invariant, price_group_invariant, H0|lia..]. }
  destruct H as [H1 [H2 H3]]. split; [exact H1|]. split; [exact H2|].
  rewrite Forall_forall in H3.
  repeat split; intros Hin; apply H3 in Hin;
    destruct Hin as [Ha [Hb Hc]]; congruence.
Qed.

Section TargetPrice.

Context {RT : Runtime}.

Hypothesis tanh_finite :
  forall q, exists t, Math_tanh (Fin q) = Fin t /\ -1 <= t <= 1.


End TargetPrice.


(* ================================================================= *)
(** ** What the chart and the performance panel compute from a
       backtest *)

Lemma accuracy_term_at_most (p : PredictionData.t) :
  passes_guard p ->
  at_most 1
    (one - Math_abs (PredictionData.actual p - PredictionData.predicted p)
           / PredictionData.actual p)%num.
Proof.
  intros H. destruct (relative_error_nonneg H) as [->|[e [-> He]]].
  - now left.
  - right. unfold one. rewrite sub_Fin. eexists. split; [reflexivity|].
    rewrite Qred_correct. lra.
Qed.

Lemma fold_at_most {A} (g : A -> num) (l : list A) :
  Forall (fun x => at_most 1 (g x)) l ->
  forall a b, at_most b a ->
  at_most (b + inject_Z (len l))
          (fold_left (fun acc x => (acc + g x)%num) l a).
Proof.
  induction 1 as [|x l Hx _ IH]; intros a b Ha; cbn [fold_left].
  - unfold len. simpl List.length. change (inject_Z (Z.of_nat 0)) with 0.
    destruct Ha as [->|[q [-> Hq]]]; [now left|].
    right. exists q. split; [reflexivity|lra].
  - assert (Hstep : at_most (b + 1) (a + g x)%num).
    { destruct Ha as [->|[q [-> Hq]]], Hx as [->|[t [-> Ht]]];
        try (now left).
      right. rewrite add_Fin. eexists. split; [reflexivity|].
      rewrite Qred_correct. lra. }
    destruct (IH _ _ Hstep) as [->|[s [-> Hs]]]; [now left|].
    right. exists s. split; [reflexivity|].
    unfold len in *. simpl List.length. rewrite Nat2Z.inj_succ.
    unfold Z.succ. rewrite inject_Z_plus. change (inject_Z 1) with 1. lra.
Qed.

Lemma accuracy_at_most_100 (data : list PredictionData.t) :
  Forall passes_guard data -> at_most 100 (accuracy data).
Proof.
  intros H. unfold accuracy.
  destruct (Z.gtb_spec (len data) 0) as [Hn|Hn];
    [|right; exists 0; split; [reflexivity|lra]].
  assert (Hpos : 0 < inject_Z (len data)).
  { pose proof (@inject_Z_pos (len data) ltac:(lia)). lra. }
  destruct (@fold_at_most _
              (fun item =>
                 (one - Math_abs (PredictionData.actual item
                                  - PredictionData.predicted item)
                        / PredictionData.actual item)%num)
              data) with (a := zero) (b := 0) as [E|[s [E Hs]]].
  - eapply Forall_impl; [intros p; apply accuracy_term_at_most|exact H].
  - right. exists 0. split; [reflexivity|lra].
  - left. cbv zeta. rewrite E. unfold of_Z, div. cbn [sgn].
    destruct (Qcompare_spec (inject_Z (len data)) 0); [lra|lra|reflexivity].
  - right. cbv zeta. rewrite E. unfold of_Z.
    rewrite div_Fin_pos by exact Hpos. rewrite mul_Fin.
    eexists. split; [reflexivity|]. rewrite !Qred_correct.
    assert (Hq : s / inject_Z (len data) <= 1).
    { apply Qle_shift_div_r; [exact Hpos|]. lra. }
    lra.
Qed.

Lemma average_confidence_within (predictions : list PredictionData.t) :
  predictions <> [] ->
  Forall (fun p => within 0.65 0.95 (PredictionData.confidence p)) predictions ->
  within 65 95 (average_confidence predictions).
Proof.
  intros Hne H. unfold average_confidence.
  assert (Hn : (1 <= len predictions)%Z).
  { destruct predictions; [congruence|]. unfold len. simpl List.length. lia. }
  pose proof (inject_Z_pos Hn) as Hpos.
  destruct (@fold_add_within _ PredictionData.confidence 0.65 0.95 predictions H 0)
    as [s [Hs Hb]].
  unfold zero. rewrite Hs. unfold of_Z. rewrite div_Fin_pos by lra.
  rewrite mul_Fin. eexists. split; [reflexivity|]. rewrite !Qred_correct.
  assert (H1 : 0.65 <= s / inject_Z (len predictions))
    by (apply Qle_shift_div_l; lra).
  assert (H2 : s / inject_Z (len predictions) <= 0.95)
    by (apply Qle_shift_div_r; lra).
  lra.
Qed.

Section ChartAndPanel.

Context {RT : Runtime}.

(** X16.  Whatever the series and the window, the accuracy that
    [PredictionChart] computes from the entries [generatePredictions]
    returns is never NaN and never above 100: it is a finite number of
    at most 100, or -Infinity. *)
Theorem accuracy_of_backtest
    (historicalData : list HistoricalData.t) (days : Z) (st : nat) :
  exists out st',
    generatePredictions historicalData days st = Ok (out, st')
    /\ at_most 100 (accuracy out).
Proof.
  destruct (generatePredictions_passes_guard historicalData days st)
    as [out [st' [E H]]].
  exists out, st'. split; [exact E|]. now apply accuracy_at_most_100.
Qed.

(** X17.  Whatever the series and the window, when [generatePredictions]
    returns at least one entry the average confidence of the
    performance panel is a finite number between 65 and 95 (per
    cent). *)
Theorem average_confidence_of_backtest
    (historicalData : list HistoricalData.t) (days : Z) (st : nat) :
  exists out st',
    generatePredictions historicalData days st = Ok (out, st')
    /\ (out <> [] -> within 65 95 (average_confidence out)).
Proof.
  destruct (generatePredictions_returns historicalData days st) as [out [st' E]].
  exists out, st'. split; [exact E|]. intros Hne.
  apply average_confidence_within; [exact Hne|].
  unfold generatePredictions in E.
  destruct (len _ <? 50)%Z; [inversion E; subst; congruence|].
  apply backtest_entries in E.
  - destruct E as [H _]. eapply Forall_impl; [|exact H]. intros p Hp. apply Hp.
  - apply Forall_forall. intros a Ha. now apply filter_In in Ha.
  - constructor.
Qed.

End ChartAndPanel.

(* ================================================================= *)
(** ** The colour of a recommendation *)

Lemma geb_Fin (x y : Q) : geb (Fin x) (Fin y) = true <-> y <= x.
Proof.
  unfold geb, leb. cbn [eqb]. split.
  - intros H. apply orb_prop in H. destruct H as [H|H].
    + apply ltb_Fin in H. lra.
    + apply Qeq_bool_eq in H. lra.
  - intros H. destruct (ltb (Fin y) (Fin x)) eqn:E; [reflexivity|].
    apply ltb_Fin_false in E. cbn [orb]. apply Qeq_bool_iff. lra.
Qed.

Lemma geb_Fin_false (x y : Q) : x < y -> geb (Fin x) (Fin y) = false.
Proof.
  intros H. destruct (geb (Fin x) (Fin y)) eqn:E; [|reflexivity].
  apply geb_Fin in E. lra.
Qed.

Section Colours.

Context {RT : Runtime}.

(** X18.  In the list [generateInvestmentRecommendations] returns, the
    confidence of every BUY and every SELL is shown green (at least
    0.8), and the confidence of a HOLD is shown yellow when the stock
    was scored and red (it is 0.5) when it was not. *)
Theorem recommendation_colours
    (stocksData : list (string * list HistoricalData.t)) (st : nat) :
  exists recs st',
    generateInvestmentRecommendations stocksData st = Ok (recs, st')
    /\ Forall (fun r =>
                 let colour :=
                   getConfidenceColor (InvestmentRecommendation.confidence r) in
                 match InvestmentRecommendation.recommendation r with
                 | BUY | SELL => colour = "text-green-600"%string
                 | HOLD =>
                     (in_confidence_range r /\ colour = "text-yellow-600"%string)
                     \/ (InvestmentRecommendation.confidence r = Fin 0.5
                         /\ colour = "text-red-600"%string)
                 end)
              recs.
Proof.
  unfold generateInvestmentRecommendations, bind.
  match goal with
  | |- exists recs st', _ /\ Forall ?P recs =>
      destruct (@mapM_Forall _ _ recommend (fun _ => True) P stocksData)
        with (st := st) as [recs [st1 [E H]]]
  end.
  { intros a s _. destruct (recommend_shape a s) as [r [s' [Er [_ [_ Hr]]]]].
    exists r, s'. split; [exact Er|]. cbv zeta.
    destruct Hr as [[_ [[Hh Hc] _]]|[_ Hrange]].
    - rewrite Hh, Hc. right. split; [reflexivity|reflexivity].
    - pose proof Hrange as [c [Hc Hb]].
      unfold getConfidenceColor. rewrite Hc.
      destruct (InvestmentRecommendation.recommendation r) eqn:Hcat.
      + now rewrite (proj2 (geb_Fin c 0.8)) by lra.
      + now rewrite (proj2 (geb_Fin c 0.8)) by lra.
      + left. split; [exact Hrange|].
        rewrite (@geb_Fin_false c 0.8) by lra.
        now rewrite (proj2 (geb_Fin c 0.6)) by lra. }
  { apply Forall_forall. intros; exact I. }
  rewrite E. eexists; eexists. split; [reflexivity|]. now apply Forall_sort.
Qed.

End Colours.

(* ================================================================= *)
(** ** The engine on the series the fetch keeps *)


Section FetchedSeries.

Context {RT : Runtime}.

Hypothesis tanh_finite :
  forall q, exists t, Math_tanh (Fin q) = Fin t /\ -1 <= t <= 1.


End FetchedSeries.


(* ================================================================= *)
(** ** The list of recent searches *)

Lemma slice_0_firstn {A} (l : list A) (k : Z) :
  (0 <= k)%Z -> slice l 0 k = firstn (Z.to_nat k) l.
Proof.
  intros Hk. unfold slice.
  destruct (Z.ltb_spec k 0); [lia|]. destruct (Z.ltb_spec 0 0); [lia|].
  pose proof (len_nonneg l).
  rewrite (Z.min_l 0) by lia. cbn [Z.to_nat skipn]. rewrite Z.sub_0_r.
  destruct (Z.le_ge_cases k (len l)).
  - now rewrite Z.min_l by lia.
  - rewrite Z.min_r by lia. unfold len in *.
    rewrite Nat2Z.id, !firstn_all2; [reflexivity|lia|lia].
Qed.

Lemma NoDup_firstn {A} (n : nat) (l : list A) : NoDup l -> NoDup (firstn n l).
Proof.
  revert l. induction n as [|n IH]; intros l H; [constructor|].
  destruct l as [|x l]; [constructor|]. inversion H; subst.
  cbn [firstn]. constructor; [|now apply IH].
  intros Hin. apply In_firstn in Hin. contradiction.
Qed.

(** X20.  The new list of recent searches starts with the symbol just
    selected, has at most five entries, holds that symbol once, holds
    otherwise only symbols of the old list, and has no duplicate when
    the old list had none. *)
Theorem add_recent_properties (validatedSymbol : string)
    (recentSearches : list string) :
  get (add_recent validatedSymbol recentSearches) 0 = Some validatedSymbol
  /\ (List.length (add_recent validatedSymbol recentSearches) <= 5)%nat
  /\ count_occ string_dec (add_recent validatedSymbol recentSearches)
               validatedSymbol = 1%nat
  /\ (forall s, In s (add_recent validatedSymbol recentSearches) ->
                s = validatedSymbol \/ In s recentSearches)
  /\ (NoDup recentSearches ->
      NoDup (add_recent validatedSymbol recentSearches)).
Proof.
  unfold add_recent. rewrite slice_0_firstn by lia.
  change (Z.to_nat 5) with 5%nat.
  set (others := filter (fun s => negb (String.eqb s validatedSymbol))
                        recentSearches).
  assert (Hnot : ~ In validatedSymbol others).
  { unfold others. intros Hin. apply filter_In in Hin.
    destruct Hin as [_ Hin]. now rewrite String.eqb_refl in Hin. }
  split; [reflexivity|]. split; [rewrite length_firstn; lia|]. split; [|split].
  - change (firstn 5 (validatedSymbol :: others))
      with (validatedSymbol :: firstn 4 others).
    cbn [count_occ].
    destruct (string_dec validatedSymbol validatedSymbol); [|congruence].
    f_equal. apply count_occ_not_In. intros Hin. apply In_firstn in Hin.
    contradiction.
  - intros s Hin. apply In_firstn in Hin. destruct Hin as [Hin|Hin].
    + left. now symmetry.
    + right. unfold others in Hin. now apply filter_In in Hin.
  - intros Hnd. apply NoDup_firstn. constructor; [exact Hnot|].
    unfold others. now apply NoDup_filter.
Qed.

(* ================================================================= *)
(** ** The features and their weighted sum *)



(* ================================================================= *)
(** ** The merged search results *)

Lemma findIndex_from_ge {A} (f : A -> bool) (l : list A) (k : Z) :
  findIndex_from f l k = (-1)%Z \/ (k <= findIndex_from f l k)%Z.
Proof.
  revert k. induction l as [|x l IH]; intros k; cbn [findIndex_from];
    [now left|].
  destruct (f x); [right; lia|]. destruct (IH (k + 1)%Z); [now left|right; lia].
Qed.

Lemma findIndex_from_first {A} (f : A -> bool) (l : list A) (start : Z) (n : nat) :
  (0 <= start)%Z ->
  findIndex_from f l start = (start + Z.of_nat n)%Z ->
  forall j b, (j < n)%nat -> nth_error l j = Some b -> f b = false.
Proof.
  revert start n. induction l as [|x l IH]; intros start n Hs Hk j b Hj Hb.
  - destruct j; discriminate.
  - cbn [findIndex_from] in Hk. destruct (f x) eqn:Efx; [lia|].
    destruct j as [|j]; cbn [nth_error] in Hb.
    + inversion Hb; subst. exact Efx.
    + destruct n as [|n]; [lia|].
      apply (IH (start + 1)%Z n) with (j := j) (b := b);
        [lia|lia|lia|exact Hb].
Qed.

(** An entry whose index is what [findIndex] returns for its own test is
    the first one that passes the test. *)
Lemma findIndex_first {A} (f : A -> bool) (l : list A) (i : Z) :
  (0 <= i)%Z -> findIndex f l = i ->
  forall j b, (0 <= j < i)%Z -> get l j = Some b -> f b = false.
Proof.
  intros Hi Hk j b Hj Hb. unfold get in Hb.
  destruct (Z.ltb_spec j 0); [lia|].
  apply (@findIndex_from_first A f l 0 (Z.to_nat i)) with (j := Z.to_nat j);
    [lia| |lia|exact Hb].
  unfold findIndex in Hk. rewrite Hk. lia.
Qed.

Lemma In_combine_range {A} (l : list A) (p : Z * A) :
  In p (combine (range 0 (len l)) l) ->
  (0 <= fst p)%Z /\ get l (fst p) = Some (snd p).
Proof.
  intros Hin. apply In_nth_error in Hin. destruct Hin as [n Hn].
  change (range 0 (len l)) with (range 0 (0 + len l)) in Hn.
  rewrite nth_error_combine_range in Hn.
  destruct (nth_error l n) as [a|] eqn:Ea; [|discriminate].
  cbn [option_map] in Hn. inversion Hn; subst p. cbn [fst snd].
  split; [lia|]. unfold get. destruct (Z.ltb_spec (Z.of_nat n) 0); [lia|].
  now rewrite Nat2Z.id.
Qed.

Lemma NoDup_combine_range {A} (l : list A) :
  NoDup (combine (range 0 (len l)) l).
Proof.
  apply NoDup_nth_error. intros i j Hi E.
  change (range 0 (len l)) with (range 0 (0 + len l)) in *.
  rewrite !nth_error_combine_range in E.
  rewrite length_combine, length_range in Hi.
  destruct (nth_error l i) as [a|] eqn:Ea.
  - destruct (nth_error l j) as [b|]; [|discriminate].
    cbn [option_map] in E. inversion E. lia.
  - apply nth_error_None in Ea. unfold len in Hi. lia.
Qed.

Lemma In_filteri {A} (f : A -> Z -> bool) (l : list A) (a : A) :
  In a (filteri f l) -> exists i, (0 <= i)%Z /\ get l i = Some a /\ f a i = true.
Proof.
  unfold filteri. intros Hin. apply in_map_iff in Hin.
  destruct Hin as [[i x] [Hx Hin]]. cbn [snd] in Hx. subst x.
  apply filter_In in Hin. destruct Hin as [Hin Hf].
  apply In_combine_range in Hin. cbn [fst snd] in *.
  exists i. tauto.
Qed.

(** X23.  The merged search results hold at most 15 entries and no
    symbol twice, and each entry is the first one with its symbol in
    the API results followed by the local suggestions, so an API
    result wins over a local suggestion with the same symbol. *)
Theorem merge_results_unique
    (apiResults localSuggestions : list Suggestion.t) :
  (List.length (merge_results apiResults localSuggestions) <= 15)%nat
  /\ NoDup (map Suggestion.symbol (merge_results apiResults localSuggestions))
  /\ forall r,
       In r (merge_results apiResults localSuggestions) ->
       exists i,
         get (apiResults ++ localSuggestions) i = Some r
         /\ forall j s, (0 <= j < i)%Z ->
                        get (apiResults ++ localSuggestions) j = Some s ->
                        Suggestion.symbol s <> Suggestion.symbol r.
Proof.
  unfold merge_results. cbv zeta. rewrite slice_0_firstn by lia.
  change (Z.to_nat 15) with 15%nat.
  set (combined := apiResults ++ localSuggestions).
  set (keep := fun (stock : Suggestion.t) (index : Z) =>
                 (index =? findIndex
                             (fun s => String.eqb (Suggestion.symbol s)
                                                  (Suggestion.symbol stock))
                             combined)%Z).
  split; [rewrite length_firstn; lia|]. split.
  - rewrite <- firstn_map. apply NoDup_firstn.
    unfold filteri. rewrite map_map.
    apply NoDup_map_NoDup_ForallPairs;
      [|apply NoDup_filter, NoDup_combine_range].
    intros p q Hp Hq Hsym.
    apply filter_In in Hp. destruct Hp as [Hp Hkp].
    apply filter_In in Hq. destruct Hq as [Hq Hkq].
    apply In_combine_range in Hp. apply In_combine_range in Hq.
    unfold keep in Hkp, Hkq. rewrite Hsym in Hkp.
    apply Z.eqb_eq in Hkp. apply Z.eqb_eq in Hkq.
    destruct p as [i x], q as [j y]. cbn [fst snd] in *.
    assert (Hij : i = j) by congruence. clear Hkp Hkq. subst j.
    destruct Hp as [_ Hp], Hq as [_ Hq]. rewrite Hp in Hq. now inversion Hq.
  - intros r Hin. apply In_firstn in Hin. apply In_filteri in Hin.
    destruct Hin as [i [Hi [Hget Hkeep]]]. exists i. split; [exact Hget|].
    intros j s Hj Hs Hsym. unfold keep in Hkeep. apply Z.eqb_eq in Hkeep.
    assert (Hf : String.eqb (Suggestion.symbol s) (Suggestion.symbol r) = false).
    { apply (@findIndex_first _
               (fun s0 => String.eqb (Suggestion.symbol s0) (Suggestion.symbol r))
               combined i Hi (eq_sym Hkeep) j s Hj Hs). }
    rewrite Hsym, String.eqb_refl in Hf. discriminate.
Qed.

(* ================================================================= *)
(** ** The engine on any input *)

Section AnyInput.

Context {RT : Runtime}.

Hypothesis tanh_finite :
  forall q, exists t, Math_tanh (Fin q) = Fin t /\ -1 <= t <= 1.





End AnyInput.

